(** * ISODateTime: ISO 8601 rendering of [std::chrono::system_clock] instants

    A shallow embedding of [ISODateTime.cpp] / [ISODateTime.h].

    The repository is one non-instantiable class of static functions.  Each
    entry point resolves an optional instant (the argument, or one read of
    the system clock), truncates it to a [time_t], asks the platform for a
    calendar breakdown ([localtime_r] or [gmtime_r]), and renders the
    breakdown with [std::put_time]; the timestamp forms append the
    millisecond remainder through an [ostringstream] with [setw(3)] and
    [setfill('0')].

    What belongs to the platform and not to the repository is kept apart:
    the tick length of [system_clock], the two conversions, and the
    semantics of [strftime] and of integer insertion into a stream. *)

From Stdlib Require Import ZArith String Ascii List Bool Lia.
Import ListNotations.

Local Open Scope string_scope.
Local Open Scope Z_scope.

(* ================================================================== *)
(** ** Text: decimal rendering and padding *)
(* ================================================================== *)

Module Text.

(** The character of a decimal digit [0..9]. *)
Definition digit_char (d : Z) : ascii := ascii_of_nat (48 + Z.to_nat d).

(** Decimal digits of a non-negative number, most significant first.
    [fuel + 1] bounds the number of digits produced. *)
Fixpoint decimal_digits (fuel : nat) (n : Z) (acc : string) : string :=
  let acc' := String (digit_char (n mod 10)) acc in
  match fuel with
  | O => acc'
  | S f => if n <? 10 then acc' else decimal_digits f (n / 10) acc'
  end.

Definition decimal (n : Z) : string :=
  decimal_digits (Z.to_nat (Z.log2 n)) n "".

(** A signed integer the way [num_put] and [printf("%d")] print it. *)
Definition signed_decimal (v : Z) : string :=
  if v <? 0 then "-" ++ decimal (- v) else decimal v.

Fixpoint replicate (n : nat) (c : ascii) : string :=
  match n with
  | O => ""
  | S k => String c (replicate k c)
  end.

(** Fill on the left up to [width] characters; longer text is kept whole. *)
Definition pad_left (width : nat) (fill : ascii) (s : string) : string :=
  replicate (width - String.length s) fill ++ s.

Definition is_digit (c : ascii) : bool :=
  let n := N_of_ascii c in (48 <=? n)%N && (n <=? 57)%N.

Fixpoint all_chars (p : ascii -> bool) (s : string) : bool :=
  match s with
  | "" => true
  | String c r => p c && all_chars p r
  end.

Fixpoint contains_char (c : ascii) (s : string) : bool :=
  match s with
  | "" => false
  | String a r => Ascii.eqb a c || contains_char c r
  end.

Fixpoint last_char (s : string) : option ascii :=
  match s with
  | "" => None
  | String c "" => Some c
  | String _ r => last_char r
  end.

Definition ends_with_char (c : ascii) (s : string) : bool :=
  match last_char s with
  | Some a => Ascii.eqb a c
  | None => false
  end.

(** [remove_last n s]: [s] without its last [n] characters. *)
Definition remove_last (n : nat) (s : string) : string :=
  substring 0 (String.length s - n) s.

(** Fixed-width decimal fields. *)
Definition two_digits (v : Z) : string :=
  String (digit_char (v / 10)) (String (digit_char (v mod 10)) "").

Definition three_digits (v : Z) : string :=
  String (digit_char (v / 100))
    (String (digit_char (v / 10 mod 10)) (String (digit_char (v mod 10)) "")).

Definition four_digits (v : Z) : string :=
  String (digit_char (v / 1000))
    (String (digit_char (v / 100 mod 10))
       (String (digit_char (v / 10 mod 10))
          (String (digit_char (v mod 10)) ""))).

(** Lexicographic combination of two comparisons. *)
Definition lex (c1 c2 : comparison) : comparison :=
  match c1 with
  | Eq => c2
  | _ => c1
  end.

(** The output grammars of the specification, read as patterns: the
    letters [Y M D H S m] stand for one decimal digit each, every other
    character for itself. *)
Definition is_placeholder (c : ascii) : bool :=
  existsb (Ascii.eqb c) ["Y"; "M"; "D"; "H"; "S"; "m"]%char.

Fixpoint matches_grammar (pattern s : string) : bool :=
  match pattern, s with
  | "", "" => true
  | String p pr, String c cr =>
      (if is_placeholder p then is_digit c else Ascii.eqb p c)
      && matches_grammar pr cr
  | _, _ => false
  end.

(** Reading decimal text back: the value of a digit character and of a
    string of digits. *)
Definition digit_value (c : ascii) : Z := Z.of_N (N_of_ascii c) - 48.

Fixpoint decimal_value_from (acc : Z) (s : string) : Z :=
  match s with
  | "" => acc
  | String c r => decimal_value_from (10 * acc + digit_value c) r
  end.

Definition decimal_value (s : string) : Z := decimal_value_from 0 s.

Fixpoint count_char (c : ascii) (s : string) : nat :=
  match s with
  | "" => O
  | String a r => ((if Ascii.eqb a c then 1 else 0) + count_char c r)%nat
  end.

(** The characters a rendered breakdown or millisecond count can hold, and
    the characters of a whole output string. *)
Definition stamp_char (c : ascii) : bool :=
  is_digit c || existsb (Ascii.eqb c) ["-"; "T"; ":"]%char.

Definition iso_char (c : ascii) : bool :=
  is_digit c || existsb (Ascii.eqb c) ["-"; "T"; ":"; "."; "Z"]%char.

End Text.

(* ================================================================== *)
(** ** <ctime>: [std::tm] and [strftime] as used through [std::put_time] *)
(* ================================================================== *)

Module CTime.
Import Text.

(** [std::tm], restricted to the members that the conversions [%F], [%H],
    [%M] and [%S] read.  [tm_mon] counts from 0, [tm_year] from 1900. *)
Record tm : Type := mk_tm {
  tm_sec : Z;
  tm_min : Z;
  tm_hour : Z;
  tm_mday : Z;
  tm_mon : Z;
  tm_year : Z
}.

(** [std::tm tm{};] value-initialisation. *)
Definition tm_zero : tm := mk_tm 0 0 0 0 0 0.

(** A number conversion of [strftime]: at least [digits] characters,
    zero-filled, the sign (if any) first. *)
Definition fmt_number (digits : nat) (v : Z) : string :=
  if v <? 0
  then "-" ++ pad_left (digits - 1) "0" (decimal (- v))
  else pad_left digits "0" (decimal v).

(** One conversion specifier. *)
Definition conversion (b : tm) (c : ascii) : string :=
  match c with
  | "Y"%char => fmt_number 1 (tm_year b + 1900)
  | "m"%char => fmt_number 2 (tm_mon b + 1)
  | "d"%char => fmt_number 2 (tm_mday b)
  | "H"%char => fmt_number 2 (tm_hour b)
  | "M"%char => fmt_number 2 (tm_min b)
  | "S"%char => fmt_number 2 (tm_sec b)
  | "F"%char => fmt_number 1 (tm_year b + 1900) ++ "-"
                ++ fmt_number 2 (tm_mon b + 1) ++ "-"
                ++ fmt_number 2 (tm_mday b)
  | "%"%char => "%"
  | _ => String "%" (String c "")
  end.

(** [os << std::put_time(&tm, fmt)]: the text inserted into the stream. *)
Fixpoint put_time (b : tm) (fmt : string) : string :=
  match fmt with
  | "" => ""
  | String "%" (String c rest) => conversion b c ++ put_time b rest
  | String c rest => String c (put_time b rest)
  end.

(** The text of [%F] and of [%FT%H:%M:%S] for a breakdown whose fields
    have their calendar widths, followed by [rest]. *)
Definition date_text (b : tm) (rest : string) : string :=
  four_digits (tm_year b + 1900)
  ++ String "-" (two_digits (tm_mon b + 1)
  ++ String "-" (two_digits (tm_mday b) ++ rest)).

Definition date_time_text (b : tm) (rest : string) : string :=
  date_text b
    (String "T" (two_digits (tm_hour b)
     ++ String ":" (two_digits (tm_min b)
     ++ String ":" (two_digits (tm_sec b) ++ rest)))).

(** Breakdowns compared field by field, most significant first. *)
Definition date_compare (a b : tm) : comparison :=
  lex (tm_year a ?= tm_year b)
    (lex (tm_mon a ?= tm_mon b) (tm_mday a ?= tm_mday b)).

Definition clock_compare (a b : tm) : comparison :=
  lex (tm_hour a ?= tm_hour b)
    (lex (tm_min a ?= tm_min b) (tm_sec a ?= tm_sec b)).

(** The result of a [localtime_r]/[gmtime_r] call: whether it reported
    success, and what the caller's buffer holds afterwards. *)
Definition conv_result : Type := bool * tm.

End CTime.

(* ================================================================== *)
(** ** <chrono>: instants, the clock, and the platform record *)
(* ================================================================== *)

Module Chrono.
Import CTime.

(** A [system_clock::time_point] is its tick count since the epoch. *)
Definition time_point : Type := Z.

(** The platform: the tick of [system_clock] is 1/(1000 * [ticks_per_ms])
    seconds (10^6 with libstdc++, 10^3 with libc++, 10^4 with MSVC), and
    the two thread-safe conversions take the [time_t] and the buffer. *)
Record platform : Type := mk_platform {
  ticks_per_ms : Z;
  localtime_r : Z -> tm -> conv_result;
  gmtime_r : Z -> tm -> conv_result
}.

(** [duration_cast] truncates towards zero, as C++ integer division. *)
Definition duration_cast_seconds (P : platform) (d : Z) : Z :=
  Z.quot d (1000 * ticks_per_ms P).

Definition duration_cast_milliseconds (P : platform) (d : Z) : Z :=
  Z.quot d (ticks_per_ms P).

(** [system_clock::to_time_t]. *)
Definition to_time_t (P : platform) (t : time_point) : Z :=
  duration_cast_seconds P t.

(** [duration % 1000]: the C++ remainder takes the sign of the dividend. *)
Definition duration_rem (d : Z) (n : Z) : Z := Z.rem d n.

(** Instants that fit the 64-bit tick counter. *)
Definition representable (t : time_point) : Prop :=
  - 2 ^ 63 <= t < 2 ^ 63.

(** The world outside the program: the readings the system clock will
    give, and how many have been taken. *)
Record world : Type := mk_world {
  clock : nat -> time_point;
  reads : nat
}.

Definition M (A : Type) : Type := world -> A * world.

Definition ret {A} (a : A) : M A := fun w => (a, w).

Definition bind {A B} (m : M A) (f : A -> M B) : M B :=
  fun w => let (a, w') := m w in f a w'.

(** [std::chrono::system_clock::now()]. *)
Definition system_clock_now : M time_point :=
  fun w => (clock w (reads w), mk_world (clock w) (S (reads w))).

End Chrono.

Notation "x <- m ;; k" := (Chrono.bind m (fun x => k))
  (at level 61, m at next level, right associativity).

(* ================================================================== *)
(** ** The POSIX conversions (platform model) *)
(* ================================================================== *)

Module Posix.
Import CTime Chrono.

Definition INT_MIN : Z := - 2 ^ 31.
Definition INT_MAX : Z := 2 ^ 31 - 1.

(** Day number (days since 1970-01-01) to proleptic Gregorian
    [(year, month 1..12, day 1..31)], by 400-year eras starting on 1 March. *)
Definition year_of_era (doe : Z) : Z :=
  (doe - doe / 1460 + doe / 36524 - doe / 146096) / 365.

Definition day_of_year (doe yoe : Z) : Z :=
  doe - (365 * yoe + yoe / 4 - yoe / 100).

(** Month counted from March (0..11), and the day within it. *)
Definition month_index (doy : Z) : Z := (5 * doy + 2) / 153.

Definition day_of_month (doy mp : Z) : Z := doy - (153 * mp + 2) / 5 + 1.

Definition civil_from_days (z : Z) : Z * Z * Z :=
  let z' := z + 719468 in
  let era := z' / 146097 in
  let doe := z' mod 146097 in
  let yoe := year_of_era doe in
  let doy := day_of_year doe yoe in
  let mp := month_index doy in
  let d := day_of_month doy mp in
  let m := if mp <? 10 then mp + 3 else mp - 9 in
  let y := yoe + era * 400 + (if m <=? 2 then 1 else 0) in
  (y, m, d).

(** First day of year [y] of an era, counted from the era's first day. *)
Definition year_start (y : Z) : Z := 365 * y + y / 4 - y / 100 + y / 400.

(** The first second of the year 10000, in seconds since the epoch. *)
Definition year_10000 : Z := 253402300800.

(** The breakdown of [t] seconds since the epoch, [offset] seconds east of
    Greenwich.  The clock fields are stored first; when the year does not
    fit [int tm_year] the call fails with [EOVERFLOW] and leaves the date
    members of the buffer as they were. *)
Definition offtime (t offset : Z) (buf : tm) : conv_result :=
  let u := t + offset in
  let days := u / 86400 in
  let rem := u mod 86400 in
  let hour := rem / 3600 in
  let min := (rem mod 3600) / 60 in
  let sec := rem mod 60 in
  let '(y, m, d) := civil_from_days days in
  if (INT_MIN <=? y - 1900) && (y - 1900 <=? INT_MAX)
  then (true, mk_tm sec min hour d (m - 1) (y - 1900))
  else (false, mk_tm sec min hour (tm_mday buf) (tm_mon buf) (tm_year buf)).

(** A POSIX platform: tick length, and the zone rule giving the offset from
    UTC in force at each instant. *)
Definition posix_platform (k : Z) (utc_offset : Z -> Z) : platform :=
  mk_platform k
    (fun t buf => offtime t (utc_offset t) buf)
    (fun t buf => offtime t 0 buf).

(** The zone rule of a host whose local zone is UTC. *)
Definition zone_utc : Z -> Z := fun _ => 0.

(** Europe/London around the end of summer time 2024: one hour ahead of
    UTC before 2024-10-27T01:00:00Z, on UTC from then on. *)
Definition zone_london_autumn_2024 : Z -> Z :=
  fun t => if t <? 1729990800 then 3600 else 0.

(** The first second of the year 1000, in seconds since the epoch. *)
Definition year_1000 : Z := -30610224000.

(** The [right/] zones of the tz database count leap seconds in [time_t].
    The C library then takes the leap seconds elapsed off before breaking
    the time down, in [gmtime_r] as in [localtime_r]
    ([__offtime (timer, tm_gmtoff - leap_correction, tp)]).  The correction
    since July 2015: 26 seconds up to the leap second at the end of 2016,
    27 after it (the leap second itself, which the library renders with
    [tm_sec = 60], is not singled out). *)
Definition right_leap_correction (t : Z) : Z :=
  if t <? 1483228827 then 26 else 27.

(** A POSIX host under a zone setting with a leap-second table. *)
Definition posix_platform_right (k : Z) (utc_offset leap : Z -> Z)
  : platform :=
  mk_platform k
    (fun t buf => offtime t (utc_offset t - leap t) buf)
    (fun t buf => offtime t (0 - leap t) buf).

(** Europe/London around the start of summer time 2024: on UTC before
    2024-03-31T01:00:00Z, one hour ahead from then on. *)
Definition zone_london_spring_2024 : Z -> Z :=
  fun t => if t <? 1711846800 then 0 else 3600.

(** libstdc++ on Linux counts nanoseconds, libc++ on macOS microseconds. *)
Definition linux (utc_offset : Z -> Z) : platform :=
  posix_platform 1000000 utc_offset.

Definition macos (utc_offset : Z -> Z) : platform :=
  posix_platform 1000 utc_offset.

(** Linux with [TZ=right/UTC]. *)
Definition linux_right_utc : platform :=
  posix_platform_right 1000000 zone_utc right_leap_correction.

End Posix.

(* ================================================================== *)
(** ** class ISODateTime *)
(* ================================================================== *)

Module ISODateTime.
Import Text CTime Chrono.

Section Platform.

Variable P : platform.

(** [static std::tm to_local_tm(std::time_t)]: the status of the platform
    call is not looked at; the buffer is returned as the call left it. *)
Definition to_local_tm (t : Z) : tm := snd (localtime_r P t tm_zero).

(** [static std::tm to_utc_tm(std::time_t)]. *)
Definition to_utc_tm (t : Z) : tm := snd (gmtime_r P t tm_zero).

(** Private: the given instant, or one reading of the system clock. *)
Definition get_input_time_point_or_current_system_time
  (time_point : option time_point) : M Chrono.time_point :=
  match time_point with
  | Some t => ret t
  | None => system_clock_now
  end.

(** Private: [setw(3) << setfill('0') << milliseconds.count()]. *)
Definition get_formatted_milliseconds (milliseconds : Z) : string :=
  pad_left 3 "0" (signed_decimal milliseconds).

(** [duration_cast<milliseconds>(now.time_since_epoch()) % 1000]. *)
Definition milliseconds_of (now : Chrono.time_point) : Z :=
  duration_rem (duration_cast_milliseconds P now) 1000.

Definition get_current_iso_date (time_point : option time_point) : M string :=
  now <- get_input_time_point_or_current_system_time time_point ;;
  let seconds := to_time_t P now in
  let tm := to_local_tm seconds in
  ret (put_time tm "%F").

Definition get_current_iso_date_time (time_point : option time_point)
  : M string :=
  now <- get_input_time_point_or_current_system_time time_point ;;
  let seconds := to_time_t P now in
  let tm := to_local_tm seconds in
  ret (put_time tm "%FT%H:%M:%S").

Definition get_current_iso_date_timestamp (time_point : option time_point)
  : M string :=
  now <- get_input_time_point_or_current_system_time time_point ;;
  let seconds := to_time_t P now in
  let milliseconds := milliseconds_of now in
  let tm := to_local_tm seconds in
  ret (put_time tm "%FT%H:%M:%S" ++ "."
       ++ get_formatted_milliseconds milliseconds).

(** The overloads without argument. *)
Definition get_current_iso_date_0 : M string :=
  get_current_iso_date None.

Definition get_current_iso_date_time_0 : M string :=
  get_current_iso_date_time None.

Definition get_current_iso_date_timestamp_0 : M string :=
  get_current_iso_date_timestamp None.

Definition get_current_utc_iso_date (time_point : option time_point)
  : M string :=
  now <- get_input_time_point_or_current_system_time time_point ;;
  let seconds := to_time_t P now in
  let tm := to_utc_tm seconds in
  ret (put_time tm "%F").

Definition get_current_utc_iso_date_time (time_point : option time_point)
  : M string :=
  now <- get_input_time_point_or_current_system_time time_point ;;
  let seconds := to_time_t P now in
  let tm := to_utc_tm seconds in
  ret (put_time tm "%FT%H:%M:%S" ++ "Z").

Definition get_current_utc_iso_date_timestamp
  (time_point : option time_point) : M string :=
  now <- get_input_time_point_or_current_system_time time_point ;;
  let seconds := to_time_t P now in
  let milliseconds := milliseconds_of now in
  let tm := to_utc_tm seconds in
  ret (put_time tm "%FT%H:%M:%S" ++ "."
       ++ get_formatted_milliseconds milliseconds ++ "Z").

Definition get_current_utc_iso_date_0 : M string :=
  get_current_utc_iso_date None.

Definition get_current_utc_iso_date_time_0 : M string :=
  get_current_utc_iso_date_time None.

Definition get_current_utc_iso_date_timestamp_0 : M string :=
  get_current_utc_iso_date_timestamp None.

End Platform.

End ISODateTime.

(* ================================================================== *)
(** ** Calls, their instants and their zones *)
(* ================================================================== *)

Module Observe.
Import CTime Chrono.

(** The instant a call works on: the argument, or the next clock reading. *)
Definition resolved (time_point : option time_point) (w : world)
  : Chrono.time_point :=
  match time_point with
  | Some t => t
  | None => clock w (reads w)
  end.

(** Two calls one after the other: the strings of the first and second. *)
Definition twice (call : M string) (w : world) : string * string :=
  let (s1, w1) := call w in
  let (s2, _) := call w1 in
  (s1, s2).

(** The six operations by zone, for statements that range over both. *)
Definition platform_conversion (utc : bool) (P : platform)
  : Z -> tm -> conv_result :=
  if utc then gmtime_r P else localtime_r P.

Definition date_entry (utc : bool) (P : platform)
  : option Chrono.time_point -> M string :=
  if utc then ISODateTime.get_current_utc_iso_date P
  else ISODateTime.get_current_iso_date P.

Definition date_time_entry (utc : bool) (P : platform)
  : option Chrono.time_point -> M string :=
  if utc then ISODateTime.get_current_utc_iso_date_time P
  else ISODateTime.get_current_iso_date_time P.

Definition date_timestamp_entry (utc : bool) (P : platform)
  : option Chrono.time_point -> M string :=
  if utc then ISODateTime.get_current_utc_iso_date_timestamp P
  else ISODateTime.get_current_iso_date_timestamp P.

Definition date_entry_0 (utc : bool) (P : platform) : M string :=
  if utc then ISODateTime.get_current_utc_iso_date_0 P
  else ISODateTime.get_current_iso_date_0 P.

Definition date_time_entry_0 (utc : bool) (P : platform) : M string :=
  if utc then ISODateTime.get_current_utc_iso_date_time_0 P
  else ISODateTime.get_current_iso_date_time_0 P.

Definition date_timestamp_entry_0 (utc : bool) (P : platform) : M string :=
  if utc then ISODateTime.get_current_utc_iso_date_timestamp_0 P
  else ISODateTime.get_current_iso_date_timestamp_0 P.

(** The offset the conversion of a zone applies on a POSIX host. *)
Definition offset_at (utc : bool) (zone : Z -> Z) (t : Z) : Z :=
  if utc then 0 else zone t.

(** The suffix the date-time and timestamp forms append. *)
Definition zone_suffix (utc : bool) : string := if utc then "Z" else "".

(** A breakdown as a successful conversion delivers it, with a year of
    four digits. *)
Definition calendar_fields (b : tm) : Prop :=
  0 <= tm_sec b <= 60 /\ 0 <= tm_min b <= 59 /\ 0 <= tm_hour b <= 23 /\
  1 <= tm_mday b <= 31 /\ 0 <= tm_mon b <= 11 /\
  1000 <= tm_year b + 1900 <= 9999.

(** A clock that starts at [t0] ticks and advances [step] ticks per read. *)
Definition ticking (t0 step : Z) : world :=
  mk_world (fun n => t0 + Z.of_nat n * step) 0.

(** A clock that gives [a] at its first reading and [b] afterwards. *)
Definition two_readings (a b : Z) : world :=
  mk_world (fun n => match n with O => a | _ => b end) 0.

(** [n] calls one after the other: their strings in order, and the world
    they leave. *)
Fixpoint calls (n : nat) (call : M string) (w : world)
  : list string * world :=
  match n with
  | O => ([], w)
  | S k =>
      let (s, w1) := call w in
      let (rest, w2) := calls k call w1 in
      (s :: rest, w2)
  end.

End Observe.

Import Text CTime Chrono Posix ISODateTime Observe.

(* ================================================================== *)
(** ** Decimal rendering: canonical forms *)
(* ================================================================== *)

Section DecimalForms.

Lemma digit_range (d : Z) :
  0 <= d < 10 ->
  d = 0 \/ d = 1 \/ d = 2 \/ d = 3 \/ d = 4 \/
  d = 5 \/ d = 6 \/ d = 7 \/ d = 8 \/ d = 9.
Proof. lia. Qed.

Ltac each_digit d H :=
  destruct (digit_range d H) as [?|[?|[?|[?|[?|[?|[?|[?|[?|?]]]]]]]]]; subst d.

Lemma digit_char_is_digit (d : Z) :
  0 <= d < 10 -> is_digit (digit_char d) = true.
Proof. intros H. each_digit d H; reflexivity. Qed.

Lemma digit_char_compare (a b : Z) :
  0 <= a < 10 -> 0 <= b < 10 ->
  Ascii.compare (digit_char a) (digit_char b) = (a ?= b).
Proof. intros Ha Hb. each_digit a Ha; each_digit b Hb; reflexivity. Qed.

Lemma decimal_digits_small (f : nat) (n : Z) (acc : string) :
  0 <= n < 10 ->
  decimal_digits f n acc = String (digit_char n) acc.
Proof.
  intros H. rewrite <- (Z.mod_small n 10) at 2 by lia.
  destruct f; simpl; [reflexivity|].
  destruct (Z.ltb_spec n 10); [reflexivity | lia].
Qed.

Lemma decimal_digits_step (f : nat) (n : Z) (acc : string) :
  10 <= n ->
  decimal_digits (S f) n acc
  = decimal_digits f (n / 10) (String (digit_char (n mod 10)) acc).
Proof.
  intros H. simpl. destruct (Z.ltb_spec n 10); [lia | reflexivity].
Qed.

Lemma log2_fuel (n b : Z) :
  0 < b -> 2 ^ b <= n -> exists f, Z.to_nat (Z.log2 n) = (Z.to_nat b + f)%nat.
Proof.
  intros Hb H.
  assert (b <= Z.log2 n).
  { rewrite <- (Z.log2_pow2 b) by lia. apply Z.log2_le_mono; assumption. }
  exists (Z.to_nat (Z.log2 n - b)). lia.
Qed.

Lemma decimal_1 (n : Z) :
  0 <= n < 10 -> decimal n = String (digit_char n) "".
Proof. intros H. unfold decimal. apply decimal_digits_small; assumption. Qed.

Lemma decimal_2 (n : Z) :
  10 <= n < 100 ->
  decimal n = String (digit_char (n / 10)) (String (digit_char (n mod 10)) "").
Proof.
  intros H. unfold decimal.
  destruct (log2_fuel n 3) as [f ->]; [lia | simpl; lia |].
  change (Z.to_nat 3 + f)%nat with (S (S (S f))).
  rewrite decimal_digits_step by lia.
  apply decimal_digits_small.
  split; [apply Z.div_pos; lia | apply Z.div_lt_upper_bound; lia].
Qed.

Lemma decimal_3 (n : Z) :
  100 <= n < 1000 ->
  decimal n = String (digit_char (n / 100))
                (String (digit_char (n / 10 mod 10))
                   (String (digit_char (n mod 10)) "")).
Proof.
  intros H. unfold decimal.
  destruct (log2_fuel n 6) as [f ->]; [lia | simpl; lia |].
  change (Z.to_nat 6 + f)%nat with (S (S (S (S (S (S f)))))).
  assert (10 <= n / 10 < 100).
  { split; [apply Z.div_le_lower_bound; lia
           | apply Z.div_lt_upper_bound; lia]. }
  rewrite decimal_digits_step by lia.
  rewrite decimal_digits_step by lia.
  rewrite Z.div_div by lia. change (10 * 10) with 100.
  apply decimal_digits_small.
  split; [apply Z.div_pos; lia | apply Z.div_lt_upper_bound; lia].
Qed.

Lemma decimal_4 (n : Z) :
  1000 <= n < 10000 ->
  decimal n = String (digit_char (n / 1000))
                (String (digit_char (n / 100 mod 10))
                   (String (digit_char (n / 10 mod 10))
                      (String (digit_char (n mod 10)) ""))).
Proof.
  intros H. unfold decimal.
  destruct (log2_fuel n 9) as [f ->]; [lia | simpl; lia |].
  change (Z.to_nat 9 + f)%nat with (S (S (S (S (S (S (S (S (S f))))))))).
  assert (100 <= n / 10 < 1000).
  { split; [apply Z.div_le_lower_bound; lia
           | apply Z.div_lt_upper_bound; lia]. }
  assert (10 <= n / 10 / 10 < 100).
  { split; [apply Z.div_le_lower_bound; lia
           | apply Z.div_lt_upper_bound; lia]. }
  rewrite decimal_digits_step by lia.
  rewrite decimal_digits_step by lia.
  rewrite decimal_digits_step by lia.
  rewrite !Z.div_div by lia.
  change (10 * 10) with 100. change (100 * 10) with 1000.
  apply decimal_digits_small.
  split; [apply Z.div_pos; lia | apply Z.div_lt_upper_bound; lia].
Qed.

End DecimalForms.

(* ================================================================== *)
(** ** The number conversions at their field widths *)
(* ================================================================== *)

Section FieldForms.

Lemma fmt_number_two_digits (v : Z) :
  0 <= v < 100 -> fmt_number 2 v = two_digits v.
Proof.
  intros H. unfold fmt_number, two_digits.
  destruct (Z.ltb_spec v 0); [lia|].
  destruct (Z.lt_ge_cases v 10).
  - rewrite decimal_1 by lia.
    rewrite Z.div_small, Z.mod_small by lia. reflexivity.
  - rewrite decimal_2 by lia. reflexivity.
Qed.

Lemma fmt_number_year (y : Z) :
  1000 <= y <= 9999 -> fmt_number 1 y = four_digits y.
Proof.
  intros H. unfold fmt_number, four_digits.
  destruct (Z.ltb_spec y 0); [lia|].
  rewrite decimal_4 by lia. reflexivity.
Qed.

Lemma formatted_milliseconds_three_digits (ms : Z) :
  0 <= ms <= 999 -> get_formatted_milliseconds ms = three_digits ms.
Proof.
  intros H. unfold get_formatted_milliseconds, signed_decimal, three_digits.
  destruct (Z.ltb_spec ms 0); [lia|].
  destruct (Z.lt_ge_cases ms 10); [|destruct (Z.lt_ge_cases ms 100)].
  - rewrite decimal_1 by lia.
    rewrite (Z.div_small ms 100), (Z.div_small ms 10), (Z.mod_small ms 10)
      by lia.
    reflexivity.
  - rewrite decimal_2 by lia.
    rewrite (Z.div_small ms 100) by lia.
    rewrite (Z.mod_small (ms / 10)); [reflexivity|].
    split; [apply Z.div_pos; lia | apply Z.div_lt_upper_bound; lia].
  - rewrite decimal_3 by lia. reflexivity.
Qed.

End FieldForms.

(* ================================================================== *)
(** ** Strings: append, membership, last character *)
(* ================================================================== *)

Section StringFacts.

Lemma app_nil_r (s : string) : s ++ "" = s.
Proof. induction s as [|c s IH]; simpl; [reflexivity | now rewrite IH]. Qed.

Lemma app_assoc (a b c : string) : (a ++ b) ++ c = a ++ (b ++ c).
Proof. induction a as [|x a IH]; simpl; [reflexivity | now rewrite IH]. Qed.

Lemma length_app (a b : string) :
  String.length (a ++ b) = (String.length a + String.length b)%nat.
Proof. induction a as [|x a IH]; simpl; [reflexivity | now rewrite IH]. Qed.

Lemma contains_char_app (c : ascii) (a b : string) :
  contains_char c (a ++ b) = contains_char c a || contains_char c b.
Proof.
  induction a as [|x a IH]; simpl; [reflexivity|].
  rewrite IH. apply orb_assoc.
Qed.

Lemma last_char_snoc (s : string) (c : ascii) :
  last_char (s ++ String c "") = Some c.
Proof.
  induction s as [|x s IH]; simpl; [reflexivity|].
  rewrite IH. destruct (s ++ String c "") eqn:E; [|reflexivity].
  destruct s; discriminate.
Qed.

Lemma ends_with_char_snoc (s : string) (c : ascii) :
  ends_with_char c (s ++ String c "") = true.
Proof. unfold ends_with_char. rewrite last_char_snoc. apply Ascii.eqb_refl. Qed.

Lemma digit_char_not_Z (d : Z) :
  0 <= d < 10 -> Ascii.eqb (digit_char d) "Z" = false.
Proof.
  intros H.
  destruct (digit_range d H) as [?|[?|[?|[?|[?|[?|[?|[?|[?|?]]]]]]]]];
    subst d; reflexivity.
Qed.

Lemma decimal_digits_no_Z (f : nat) :
  forall (n : Z) (acc : string),
    contains_char "Z" (decimal_digits f n acc) = contains_char "Z" acc.
Proof.
  assert (step : forall n acc,
             contains_char "Z" (String (digit_char (n mod 10)) acc)
             = contains_char "Z" acc).
  { intros n acc. cbn [contains_char].
    rewrite digit_char_not_Z by (apply Z.mod_pos_bound; lia). reflexivity. }
  induction f as [|f IH]; intros n acc.
  - apply step.
  - cbn [decimal_digits]. destruct (n <? 10); [apply step|].
    rewrite IH. apply step.
Qed.

Lemma decimal_no_Z (n : Z) : contains_char "Z" (decimal n) = false.
Proof. unfold decimal. now rewrite decimal_digits_no_Z. Qed.

Lemma replicate_zero_no_Z (n : nat) : contains_char "Z" (replicate n "0") = false.
Proof. induction n as [|n IH]; simpl; [reflexivity | exact IH]. Qed.

Lemma pad_left_no_Z (w : nat) (s : string) :
  contains_char "Z" s = false -> contains_char "Z" (pad_left w "0" s) = false.
Proof.
  intros H. unfold pad_left.
  now rewrite contains_char_app, replicate_zero_no_Z, H.
Qed.

Lemma fmt_number_no_Z (digits : nat) (v : Z) :
  contains_char "Z" (fmt_number digits v) = false.
Proof.
  unfold fmt_number. destruct (v <? 0).
  - rewrite contains_char_app.
    change (contains_char "Z" "-") with false.
    apply pad_left_no_Z, decimal_no_Z.
  - apply pad_left_no_Z, decimal_no_Z.
Qed.

Lemma formatted_milliseconds_no_Z (ms : Z) :
  contains_char "Z" (get_formatted_milliseconds ms) = false.
Proof.
  unfold get_formatted_milliseconds, signed_decimal.
  apply pad_left_no_Z. destruct (ms <? 0).
  - rewrite contains_char_app.
    change (contains_char "Z" "-") with false. apply decimal_no_Z.
  - apply decimal_no_Z.
Qed.

Lemma put_time_date_no_Z (b : tm) : contains_char "Z" (put_time b "%F") = false.
Proof.
  cbn [put_time conversion].
  rewrite !contains_char_app, !fmt_number_no_Z. reflexivity.
Qed.

Lemma contains_char_cons (c a : ascii) (r : string) :
  contains_char c (String a r) = Ascii.eqb a c || contains_char c r.
Proof. reflexivity. Qed.

Lemma put_time_date_time_no_Z (b : tm) :
  contains_char "Z" (put_time b "%FT%H:%M:%S") = false.
Proof.
  cbn [put_time conversion].
  repeat first [ rewrite contains_char_app
               | rewrite fmt_number_no_Z
               | rewrite contains_char_cons ].
  reflexivity.
Qed.

End StringFacts.

(* ================================================================== *)
(** ** What each entry point returns *)
(* ================================================================== *)

Section Runs.

Variable P : platform.
Variable time_point : option Chrono.time_point.
Variable w : world.

Let now := resolved time_point w.

Lemma run_iso_date :
  fst (get_current_iso_date P time_point w)
  = put_time (to_local_tm P (to_time_t P now)) "%F".
Proof. subst now. destruct time_point; reflexivity. Qed.

Lemma run_iso_date_time :
  fst (get_current_iso_date_time P time_point w)
  = put_time (to_local_tm P (to_time_t P now)) "%FT%H:%M:%S".
Proof. subst now. destruct time_point; reflexivity. Qed.

Lemma run_iso_date_timestamp :
  fst (get_current_iso_date_timestamp P time_point w)
  = put_time (to_local_tm P (to_time_t P now)) "%FT%H:%M:%S" ++ "."
    ++ get_formatted_milliseconds (milliseconds_of P now).
Proof. subst now. destruct time_point; reflexivity. Qed.

Lemma run_utc_iso_date :
  fst (get_current_utc_iso_date P time_point w)
  = put_time (to_utc_tm P (to_time_t P now)) "%F".
Proof. subst now. destruct time_point; reflexivity. Qed.

Lemma run_utc_iso_date_time :
  fst (get_current_utc_iso_date_time P time_point w)
  = put_time (to_utc_tm P (to_time_t P now)) "%FT%H:%M:%S" ++ "Z".
Proof. subst now. destruct time_point; reflexivity. Qed.

Lemma run_utc_iso_date_timestamp :
  fst (get_current_utc_iso_date_timestamp P time_point w)
  = put_time (to_utc_tm P (to_time_t P now)) "%FT%H:%M:%S" ++ "."
    ++ get_formatted_milliseconds (milliseconds_of P now) ++ "Z".
Proof. subst now. destruct time_point; reflexivity. Qed.

End Runs.

(* ================================================================== *)
(** ** Milliseconds *)
(* ================================================================== *)

Section Milliseconds.

Variable P : platform.
Hypothesis ticks_positive : 0 < ticks_per_ms P.

Lemma milliseconds_after_epoch (i : Z) :
  0 <= i ->
  milliseconds_of P i = (i / ticks_per_ms P) mod 1000
  /\ 0 <= milliseconds_of P i <= 999.
Proof.
  intros Hi. unfold milliseconds_of, duration_rem, duration_cast_milliseconds.
  rewrite Z.quot_div_nonneg by lia.
  assert (0 <= i / ticks_per_ms P) by (apply Z.div_pos; lia).
  rewrite Z.rem_mod_nonneg by lia.
  pose proof (Z.mod_pos_bound (i / ticks_per_ms P) 1000). lia.
Qed.

Lemma time_t_after_epoch (i : Z) :
  0 <= i -> to_time_t P i = i / (1000 * ticks_per_ms P).
Proof.
  intros Hi. unfold to_time_t, duration_cast_seconds.
  apply Z.quot_div_nonneg; lia.
Qed.

End Milliseconds.

(** The date-time text is always the beginning of the timestamp text; what
    follows is the point and the millisecond field as the stream printed it. *)
Lemma timestamp_extends_date_time (P : platform)
  (time_point : option Chrono.time_point) (w : world) :
  fst (get_current_iso_date_timestamp P time_point w)
  = fst (get_current_iso_date_time P time_point w) ++ "."
    ++ get_formatted_milliseconds (milliseconds_of P (resolved time_point w)).
Proof. rewrite run_iso_date_timestamp, run_iso_date_time. reflexivity. Qed.

(* ================================================================== *)
(** ** The calendar: ranges and order *)
(* ================================================================== *)

Section Calendar.

Lemma lex_Lt (a b : Z) (c : comparison) :
  a < b \/ (a = b /\ c = Lt) -> lex (a ?= b) c = Lt.
Proof.
  intros [H|[-> H]]; unfold lex.
  - now rewrite (proj2 (Z.compare_lt_iff a b) H).
  - now rewrite Z.compare_refl.
Qed.

Lemma lex3_Lt (y1 y2 m1 m2 d1 d2 : Z) :
  y1 < y2 \/ (y1 = y2 /\ (m1 < m2 \/ (m1 = m2 /\ d1 < d2))) ->
  lex (y1 ?= y2) (lex (m1 ?= m2) (d1 ?= d2)) = Lt.
Proof.
  intros H. apply lex_Lt.
  destruct H as [H|[H1 H]]; [left; exact H | right].
  split; [exact H1|]. apply lex_Lt.
  destruct H as [H|[H2 H]]; [left; exact H | right].
  split; [exact H2|]. now apply Z.compare_lt_iff.
Qed.

Lemma lex_Lt_le (a b : Z) (c : comparison) :
  lex (a ?= b) c = Lt -> a <= b.
Proof.
  unfold lex. destruct (Z.compare_spec a b); intros; try lia; discriminate.
Qed.

Lemma year_of_era_spec (doe : Z) :
  0 <= doe < 146097 ->
  0 <= year_of_era doe <= 399
  /\ year_start (year_of_era doe) <= doe < year_start (year_of_era doe + 1).
Proof.
  intros H. unfold year_of_era, year_start.
  Z.div_mod_to_equations. lia.
Qed.

Lemma year_start_mono (a b : Z) : a <= b -> year_start a <= year_start b.
Proof. intros H. unfold year_start. Z.div_mod_to_equations. lia. Qed.

Lemma day_of_year_range (doe : Z) :
  0 <= doe < 146097 -> 0 <= day_of_year doe (year_of_era doe) <= 365.
Proof.
  intros H. destruct (year_of_era_spec doe H) as [Hy Hs].
  revert Hs Hy. generalize (year_of_era doe). intros y.
  unfold day_of_year, year_start. Z.div_mod_to_equations. lia.
Qed.

Lemma year_of_era_mono (a b : Z) :
  0 <= a -> a < b -> b < 146097 ->
  year_of_era a < year_of_era b
  \/ (year_of_era a = year_of_era b
      /\ day_of_year a (year_of_era a) < day_of_year b (year_of_era b)).
Proof.
  intros Ha Hab Hb.
  destruct (year_of_era_spec a ltac:(lia)) as [Hya Hsa].
  destruct (year_of_era_spec b ltac:(lia)) as [Hyb Hsb].
  destruct (Z.lt_total (year_of_era a) (year_of_era b)) as [Hlt|[Heq|Hgt]].
  - left; assumption.
  - right. split; [assumption|]. unfold day_of_year. rewrite Heq. lia.
  - exfalso.
    pose proof (year_start_mono (year_of_era b + 1) (year_of_era a)
                  ltac:(lia)).
    lia.
Qed.

Lemma month_day_range (doy : Z) :
  0 <= doy <= 365 ->
  0 <= month_index doy <= 11
  /\ 1 <= day_of_month doy (month_index doy) <= 31.
Proof.
  intros H. unfold month_index, day_of_month.
  Z.div_mod_to_equations. lia.
Qed.

Lemma month_index_mono (a b : Z) :
  0 <= a -> a < b ->
  month_index a < month_index b
  \/ (month_index a = month_index b
      /\ day_of_month a (month_index a) < day_of_month b (month_index b)).
Proof.
  intros Ha Hab.
  assert (month_index a <= month_index b).
  { unfold month_index. apply Z.div_le_mono; lia. }
  destruct (Z.eq_dec (month_index a) (month_index b)) as [E|N].
  - right. split; [assumption|]. unfold day_of_month. rewrite E. lia.
  - left. lia.
Qed.

(** Month and day of every day number are in range. *)
Lemma civil_from_days_range (z : Z) :
  let '(y, m, d) := civil_from_days z in 1 <= m <= 12 /\ 1 <= d <= 31.
Proof.
  unfold civil_from_days.
  set (doe := (z + 719468) mod 146097).
  assert (Hdoe : 0 <= doe < 146097) by (apply Z.mod_pos_bound; lia).
  pose proof (day_of_year_range doe Hdoe) as Hdoy.
  destruct (month_day_range _ Hdoy) as [Hmp Hd].
  split; [|exact Hd].
  destruct (Z.ltb_spec (month_index (day_of_year doe (year_of_era doe))) 10);
    lia.
Qed.

(** A later day has a later date, in the order year, month, day. *)
Lemma civil_from_days_increasing (z1 z2 : Z) :
  z1 < z2 ->
  let '(y1, m1, d1) := civil_from_days z1 in
  let '(y2, m2, d2) := civil_from_days z2 in
  lex (y1 ?= y2) (lex (m1 ?= m2) (d1 ?= d2)) = Lt.
Proof.
  intros Hz. unfold civil_from_days.
  set (e1 := (z1 + 719468) / 146097). set (r1 := (z1 + 719468) mod 146097).
  set (e2 := (z2 + 719468) / 146097). set (r2 := (z2 + 719468) mod 146097).
  assert (Hr1 : 0 <= r1 < 146097) by (apply Z.mod_pos_bound; lia).
  assert (Hr2 : 0 <= r2 < 146097) by (apply Z.mod_pos_bound; lia).
  assert (He : e1 < e2 \/ (e1 = e2 /\ r1 < r2)).
  { subst e1 e2 r1 r2. Z.div_mod_to_equations. lia. }
  destruct (year_of_era_spec r1 Hr1) as [Hy1 _].
  destruct (year_of_era_spec r2 Hr2) as [Hy2 _].
  pose proof (day_of_year_range r1 Hr1) as Hdoy1.
  pose proof (day_of_year_range r2 Hr2) as Hdoy2.
  destruct (month_day_range _ Hdoy1) as [Hmp1 Hd1].
  destruct (month_day_range _ Hdoy2) as [Hmp2 Hd2].
  assert (Hord :
    e1 < e2
    \/ (e1 = e2
        /\ (year_of_era r1 < year_of_era r2
            \/ (year_of_era r1 = year_of_era r2
                /\ (month_index (day_of_year r1 (year_of_era r1))
                    < month_index (day_of_year r2 (year_of_era r2))
                    \/ (month_index (day_of_year r1 (year_of_era r1))
                        = month_index (day_of_year r2 (year_of_era r2))
                        /\ day_of_month (day_of_year r1 (year_of_era r1))
                             (month_index (day_of_year r1 (year_of_era r1)))
                           < day_of_month (day_of_year r2 (year_of_era r2))
                               (month_index
                                  (day_of_year r2 (year_of_era r2))))))))).
  { destruct He as [He|[He Hr]]; [left; exact He | right].
    split; [exact He|].
    destruct (year_of_era_mono r1 r2) as [Hy|[Hy Hdoy]]; try lia.
    right. split; [exact Hy|].
    apply month_index_mono; lia. }
  revert Hord Hy1 Hy2 Hmp1 Hmp2 Hd1 Hd2.
  generalize (day_of_month (day_of_year r1 (year_of_era r1))
                (month_index (day_of_year r1 (year_of_era r1)))).
  generalize (day_of_month (day_of_year r2 (year_of_era r2))
                (month_index (day_of_year r2 (year_of_era r2)))).
  generalize (month_index (day_of_year r1 (year_of_era r1))).
  generalize (month_index (day_of_year r2 (year_of_era r2))).
  generalize (year_of_era r1). generalize (year_of_era r2).
  intros yoe2 yoe1 mp2 mp1 d2 d1 Hord Hy1 Hy2 Hmp1 Hmp2 Hd1 Hd2.
  apply lex3_Lt.
  destruct (Z.ltb_spec mp1 10); destruct (Z.ltb_spec mp2 10);
    repeat match goal with
           | |- context [?a <=? ?b] => destruct (Z.leb_spec a b)
           end; lia.
Qed.

End Calendar.

(* ================================================================== *)
(** ** The POSIX conversion between the epoch and the year 10000 *)
(* ================================================================== *)

Section Offtime.

Lemma compare_shift (a b c : Z) : (a - c ?= b - c) = (a ?= b).
Proof.
  destruct (Z.compare_spec a b) as [->|H|H].
  - apply Z.compare_refl.
  - apply Z.compare_lt_iff. lia.
  - apply Z.compare_gt_iff. lia.
Qed.

Lemma civil_year_range (z : Z) :
  0 <= z <= 2932896 ->
  let '(y, _, _) := civil_from_days z in 1970 <= y <= 9999.
Proof.
  intros Hz.
  assert (Hlo : civil_from_days 0 = (1970, 1, 1)) by (vm_compute; reflexivity).
  assert (Hhi : civil_from_days 2932896 = (9999, 12, 31))
    by (vm_compute; reflexivity).
  destruct (civil_from_days z) as [[y m] d] eqn:E.
  split.
  - destruct (Z.eq_dec z 0) as [->|Hne].
    + rewrite Hlo in E. injection E as <- _ _. lia.
    + pose proof (civil_from_days_increasing 0 z ltac:(lia)) as H.
      rewrite Hlo, E in H. apply lex_Lt_le in H. exact H.
  - destruct (Z.eq_dec z 2932896) as [->|Hne].
    + rewrite Hhi in E. injection E as <- _ _. lia.
    + pose proof (civil_from_days_increasing z 2932896 ltac:(lia)) as H.
      rewrite Hhi, E in H. apply lex_Lt_le in H. exact H.
Qed.

(** Between the epoch and the year 10000 the conversion succeeds and fills
    the buffer with fields of the calendar widths. *)
Lemma offtime_succeeds (t offset : Z) (buf : tm) :
  0 <= t + offset < year_10000 ->
  fst (offtime t offset buf) = true
  /\ calendar_fields (snd (offtime t offset buf)).
Proof.
  intros Hu. unfold offtime, year_10000 in *.
  set (u := t + offset) in *.
  assert (Hdays : 0 <= u / 86400 <= 2932896).
  { Z.div_mod_to_equations. lia. }
  pose proof (civil_year_range _ Hdays) as Hy.
  pose proof (civil_from_days_range (u / 86400)) as Hmd.
  destruct (civil_from_days (u / 86400)) as [[y m] d].
  assert (Hint : (INT_MIN <=? y - 1900) && (y - 1900 <=? INT_MAX) = true).
  { unfold INT_MIN, INT_MAX. apply andb_true_iff.
    split; apply Z.leb_le; lia. }
  rewrite Hint. cbn [fst snd]. split; [reflexivity|].
  unfold calendar_fields. cbn [tm_sec tm_min tm_hour tm_mday tm_mon tm_year].
  repeat split; try lia; Z.div_mod_to_equations; lia.
Qed.

Lemma clock_fields_increasing (r1 r2 : Z) :
  0 <= r1 -> r1 < r2 -> r2 < 86400 ->
  lex (r1 / 3600 ?= r2 / 3600)
    (lex (r1 mod 3600 / 60 ?= r2 mod 3600 / 60) (r1 mod 60 ?= r2 mod 60)) = Lt.
Proof.
  intros H0 H1 H2. apply lex3_Lt. Z.div_mod_to_equations. lia.
Qed.

(** A later second has a later breakdown: a later date, or the same date
    and a later time of day. *)
Lemma offtime_increasing (t1 o1 t2 o2 : Z) (buf : tm) :
  0 <= t1 + o1 -> t1 + o1 < t2 + o2 -> t2 + o2 < year_10000 ->
  lex (date_compare (snd (offtime t1 o1 buf)) (snd (offtime t2 o2 buf)))
    (clock_compare (snd (offtime t1 o1 buf)) (snd (offtime t2 o2 buf))) = Lt.
Proof.
  intros H0 H1 H2.
  pose proof (offtime_succeeds t1 o1 buf ltac:(lia)) as [S1 _].
  pose proof (offtime_succeeds t2 o2 buf ltac:(lia)) as [S2 _].
  revert S1 S2. unfold offtime, year_10000 in *.
  set (u1 := t1 + o1) in *. set (u2 := t2 + o2) in *.
  assert (Hd : u1 / 86400 < u2 / 86400
               \/ (u1 / 86400 = u2 / 86400 /\ u1 mod 86400 < u2 mod 86400)).
  { Z.div_mod_to_equations. lia. }
  assert (Hr1 : 0 <= u1 mod 86400 < 86400) by (apply Z.mod_pos_bound; lia).
  assert (Hr2 : 0 <= u2 mod 86400 < 86400) by (apply Z.mod_pos_bound; lia).
  destruct Hd as [Hd|[Hd Hr]].
  - pose proof (civil_from_days_increasing _ _ Hd) as Hc.
    destruct (civil_from_days (u1 / 86400)) as [[y1 m1] d1].
    destruct (civil_from_days (u2 / 86400)) as [[y2 m2] d2].
    destruct ((INT_MIN <=? y1 - 1900) && (y1 - 1900 <=? INT_MAX));
      [|discriminate].
    destruct ((INT_MIN <=? y2 - 1900) && (y2 - 1900 <=? INT_MAX));
      [|discriminate].
    intros _ _. unfold date_compare.
    cbn [snd tm_sec tm_min tm_hour tm_mday tm_mon tm_year].
    rewrite !compare_shift, Hc. reflexivity.
  - rewrite Hd.
    destruct (civil_from_days (u2 / 86400)) as [[y2 m2] d2].
    destruct ((INT_MIN <=? y2 - 1900) && (y2 - 1900 <=? INT_MAX));
      [|discriminate].
    intros _ _. unfold date_compare, clock_compare.
    cbn [snd tm_sec tm_min tm_hour tm_mday tm_mon tm_year].
    rewrite !Z.compare_refl. cbn [lex].
    apply clock_fields_increasing; lia.
Qed.

(** The same from the year 1000 on, before the epoch too. *)
Lemma civil_year_range_from_1000 (z : Z) :
  -354285 <= z <= 2932896 ->
  let '(y, _, _) := civil_from_days z in 1000 <= y <= 9999.
Proof.
  intros Hz.
  assert (Hlo : civil_from_days (-354285) = (1000, 1, 1))
    by (vm_compute; reflexivity).
  assert (Hhi : civil_from_days 2932896 = (9999, 12, 31))
    by (vm_compute; reflexivity).
  destruct (civil_from_days z) as [[y m] d] eqn:E.
  split.
  - destruct (Z.eq_dec z (-354285)) as [->|Hne].
    + rewrite Hlo in E. injection E as <- _ _. lia.
    + pose proof (civil_from_days_increasing (-354285) z ltac:(lia)) as H.
      rewrite Hlo, E in H. apply lex_Lt_le in H. exact H.
  - destruct (Z.eq_dec z 2932896) as [->|Hne].
    + rewrite Hhi in E. injection E as <- _ _. lia.
    + pose proof (civil_from_days_increasing z 2932896 ltac:(lia)) as H.
      rewrite Hhi, E in H. apply lex_Lt_le in H. exact H.
Qed.

Lemma offtime_succeeds_from_1000 (t offset : Z) (buf : tm) :
  year_1000 <= t + offset < year_10000 ->
  fst (offtime t offset buf) = true
  /\ calendar_fields (snd (offtime t offset buf)).
Proof.
  intros Hu. unfold offtime, year_1000, year_10000 in *.
  set (u := t + offset) in *.
  assert (Hdays : -354285 <= u / 86400 <= 2932896).
  { Z.div_mod_to_equations. lia. }
  pose proof (civil_year_range_from_1000 _ Hdays) as Hy.
  pose proof (civil_from_days_range (u / 86400)) as Hmd.
  destruct (civil_from_days (u / 86400)) as [[y m] d].
  assert (Hint : (INT_MIN <=? y - 1900) && (y - 1900 <=? INT_MAX) = true).
  { unfold INT_MIN, INT_MAX. apply andb_true_iff.
    split; apply Z.leb_le; lia. }
  rewrite Hint. cbn [fst snd]. split; [reflexivity|].
  unfold calendar_fields. cbn [tm_sec tm_min tm_hour tm_mday tm_mon tm_year].
  repeat split; try lia; Z.div_mod_to_equations; lia.
Qed.

Lemma offtime_increasing_from_1000 (t1 o1 t2 o2 : Z) (buf : tm) :
  year_1000 <= t1 + o1 -> t1 + o1 < t2 + o2 -> t2 + o2 < year_10000 ->
  lex (date_compare (snd (offtime t1 o1 buf)) (snd (offtime t2 o2 buf)))
    (clock_compare (snd (offtime t1 o1 buf)) (snd (offtime t2 o2 buf))) = Lt.
Proof.
  intros H0 H1 H2.
  pose proof (offtime_succeeds_from_1000 t1 o1 buf ltac:(lia)) as [S1 _].
  pose proof (offtime_succeeds_from_1000 t2 o2 buf ltac:(lia)) as [S2 _].
  revert S1 S2. unfold offtime, year_1000, year_10000 in *.
  set (u1 := t1 + o1) in *. set (u2 := t2 + o2) in *.
  assert (Hd : u1 / 86400 < u2 / 86400
               \/ (u1 / 86400 = u2 / 86400 /\ u1 mod 86400 < u2 mod 86400)).
  { Z.div_mod_to_equations. lia. }
  assert (Hr1 : 0 <= u1 mod 86400 < 86400) by (apply Z.mod_pos_bound; lia).
  assert (Hr2 : 0 <= u2 mod 86400 < 86400) by (apply Z.mod_pos_bound; lia).
  destruct Hd as [Hd|[Hd Hr]].
  - pose proof (civil_from_days_increasing _ _ Hd) as Hc.
    destruct (civil_from_days (u1 / 86400)) as [[y1 m1] d1].
    destruct (civil_from_days (u2 / 86400)) as [[y2 m2] d2].
    destruct ((INT_MIN <=? y1 - 1900) && (y1 - 1900 <=? INT_MAX));
      [|discriminate].
    destruct ((INT_MIN <=? y2 - 1900) && (y2 - 1900 <=? INT_MAX));
      [|discriminate].
    intros _ _. unfold date_compare.
    cbn [snd tm_sec tm_min tm_hour tm_mday tm_mon tm_year].
    rewrite !compare_shift, Hc. reflexivity.
  - rewrite Hd.
    destruct (civil_from_days (u2 / 86400)) as [[y2 m2] d2].
    destruct ((INT_MIN <=? y2 - 1900) && (y2 - 1900 <=? INT_MAX));
      [|discriminate].
    intros _ _. unfold date_compare, clock_compare.
    cbn [snd tm_sec tm_min tm_hour tm_mday tm_mon tm_year].
    rewrite !Z.compare_refl. cbn [lex].
    apply clock_fields_increasing; lia.
Qed.

End Offtime.

(* ================================================================== *)
(** ** Fixed-width fields: text forms, grammar and order *)
(* ================================================================== *)

Section FixedWidth.

Lemma put_time_date_form (b : tm) (rest : string) :
  calendar_fields b -> put_time b "%F" ++ rest = date_text b rest.
Proof.
  intros (Hs & Hm & Hh & Hd & Hmo & Hy).
  cbn [put_time conversion]. unfold date_text.
  rewrite fmt_number_year, !fmt_number_two_digits by lia.
  rewrite !app_assoc. reflexivity.
Qed.

Lemma put_time_date_time_form (b : tm) (rest : string) :
  calendar_fields b ->
  put_time b "%FT%H:%M:%S" ++ rest = date_time_text b rest.
Proof.
  intros (Hs & Hm & Hh & Hd & Hmo & Hy).
  cbn [put_time conversion]. unfold date_time_text, date_text.
  rewrite fmt_number_year, !fmt_number_two_digits by lia.
  cbn [append]. rewrite !app_assoc. cbn [append]. rewrite !app_assoc.
  reflexivity.
Qed.

Ltac digit_bound :=
  first [ apply Z.mod_pos_bound; lia
        | split; [apply Z.div_pos; lia | apply Z.div_lt_upper_bound; lia] ].

(** *** Grammar *)

Lemma grammar_digit (p : ascii) (pr : string) (d : Z) (r : string) :
  is_placeholder p = true -> 0 <= d < 10 ->
  matches_grammar (String p pr) (String (digit_char d) r)
  = matches_grammar pr r.
Proof.
  intros Hp Hd. cbn [matches_grammar].
  rewrite Hp, digit_char_is_digit by assumption. reflexivity.
Qed.

Lemma grammar_literal (c : ascii) (pr r : string) :
  is_placeholder c = false ->
  matches_grammar (String c pr) (String c r) = matches_grammar pr r.
Proof.
  intros Hc. cbn [matches_grammar]. rewrite Hc, Ascii.eqb_refl. reflexivity.
Qed.

Lemma grammar_two_digits (p q : ascii) (pr : string) (v : Z) (r : string) :
  is_placeholder p = true -> is_placeholder q = true -> 0 <= v < 100 ->
  matches_grammar (String p (String q pr)) (two_digits v ++ r)
  = matches_grammar pr r.
Proof.
  intros Hp Hq Hv. unfold two_digits. cbn [append].
  rewrite !grammar_digit by (assumption || digit_bound). reflexivity.
Qed.

Lemma grammar_three_digits (p q s : ascii) (pr : string) (v : Z) (r : string) :
  is_placeholder p = true -> is_placeholder q = true ->
  is_placeholder s = true -> 0 <= v < 1000 ->
  matches_grammar (String p (String q (String s pr))) (three_digits v ++ r)
  = matches_grammar pr r.
Proof.
  intros Hp Hq Hs Hv. unfold three_digits. cbn [append].
  rewrite !grammar_digit by (assumption || digit_bound). reflexivity.
Qed.

Lemma grammar_four_digits (p q s t : ascii) (pr : string) (v : Z) (r : string) :
  is_placeholder p = true -> is_placeholder q = true ->
  is_placeholder s = true -> is_placeholder t = true -> 0 <= v < 10000 ->
  matches_grammar (String p (String q (String s (String t pr))))
    (four_digits v ++ r)
  = matches_grammar pr r.
Proof.
  intros Hp Hq Hs Ht Hv. unfold four_digits. cbn [append].
  rewrite !grammar_digit by (assumption || digit_bound). reflexivity.
Qed.

Lemma date_text_grammar (b : tm) (pr rest : string) :
  calendar_fields b ->
  matches_grammar ("YYYY-MM-DD" ++ pr) (date_text b rest)
  = matches_grammar pr rest.
Proof.
  intros (Hs & Hm & Hh & Hd & Hmo & Hy). unfold date_text. cbn [append].
  rewrite grammar_four_digits by (reflexivity || lia).
  rewrite grammar_literal by reflexivity.
  rewrite grammar_two_digits by (reflexivity || lia).
  rewrite grammar_literal by reflexivity.
  rewrite grammar_two_digits by (reflexivity || lia).
  reflexivity.
Qed.

Lemma date_time_text_grammar (b : tm) (pr rest : string) :
  calendar_fields b ->
  matches_grammar ("YYYY-MM-DDTHH:MM:SS" ++ pr) (date_time_text b rest)
  = matches_grammar pr rest.
Proof.
  intros Hb. unfold date_time_text.
  change ("YYYY-MM-DDTHH:MM:SS" ++ pr)
    with ("YYYY-MM-DD" ++ ("THH:MM:SS" ++ pr)).
  rewrite date_text_grammar by assumption.
  destruct Hb as (Hs & Hm & Hh & Hd & Hmo & Hy). cbn [append].
  rewrite grammar_literal by reflexivity.
  rewrite grammar_two_digits by (reflexivity || lia).
  rewrite grammar_literal by reflexivity.
  rewrite grammar_two_digits by (reflexivity || lia).
  rewrite grammar_literal by reflexivity.
  rewrite grammar_two_digits by (reflexivity || lia).
  reflexivity.
Qed.

(** The three renderings against the grammars of the specification. *)
Lemma date_grammar (b : tm) :
  calendar_fields b -> matches_grammar "YYYY-MM-DD" (put_time b "%F") = true.
Proof.
  intros Hc. rewrite <- (app_nil_r (put_time b "%F")).
  rewrite put_time_date_form by assumption.
  change "YYYY-MM-DD" with ("YYYY-MM-DD" ++ "").
  rewrite date_text_grammar by assumption. reflexivity.
Qed.

Lemma date_time_grammar (b : tm) (sfx : string) :
  calendar_fields b ->
  matches_grammar ("YYYY-MM-DDTHH:MM:SS" ++ sfx)
    (put_time b "%FT%H:%M:%S" ++ sfx)
  = matches_grammar sfx sfx.
Proof.
  intros Hc. rewrite put_time_date_time_form by assumption.
  apply date_time_text_grammar; assumption.
Qed.

Lemma timestamp_grammar (b : tm) (sfx : string) (ms : Z) :
  calendar_fields b -> 0 <= ms <= 999 ->
  matches_grammar ("YYYY-MM-DDTHH:MM:SS.mmm" ++ sfx)
    (put_time b "%FT%H:%M:%S" ++ "."
     ++ get_formatted_milliseconds ms ++ sfx)
  = matches_grammar sfx sfx.
Proof.
  intros Hc Hms. rewrite put_time_date_time_form by assumption.
  change ("YYYY-MM-DDTHH:MM:SS.mmm" ++ sfx)
    with ("YYYY-MM-DDTHH:MM:SS" ++ (".mmm" ++ sfx)).
  rewrite date_time_text_grammar by assumption.
  cbn [append]. rewrite grammar_literal by reflexivity.
  rewrite formatted_milliseconds_three_digits by assumption.
  apply grammar_three_digits; try reflexivity. lia.
Qed.

(** *** Order *)

Lemma compare_refl (s : string) : (s ?= s)%string = Eq.
Proof.
  induction s as [|c s IH]; cbn [String.compare]; [reflexivity|].
  unfold Ascii.compare. rewrite N.compare_refl. exact IH.
Qed.

Lemma compare_cons_same (c : ascii) (a b : string) :
  (String c a ?= String c b)%string = (a ?= b)%string.
Proof.
  cbn [String.compare]. unfold Ascii.compare. now rewrite N.compare_refl.
Qed.

Lemma compare_app_same (p a b : string) :
  (p ++ a ?= p ++ b)%string = (a ?= b)%string.
Proof.
  induction p as [|c p IH]; cbn [append]; [reflexivity|].
  rewrite compare_cons_same. exact IH.
Qed.

Lemma compare_digit (a b : Z) (r1 r2 : string) :
  0 <= a < 10 -> 0 <= b < 10 ->
  (String (digit_char a) r1 ?= String (digit_char b) r2)%string
  = lex (a ?= b) (r1 ?= r2)%string.
Proof.
  intros Ha Hb. cbn [String.compare].
  rewrite digit_char_compare by assumption.
  unfold lex. destruct (a ?= b); reflexivity.
Qed.

Lemma lex_assoc (c1 c2 c3 : comparison) :
  lex (lex c1 c2) c3 = lex c1 (lex c2 c3).
Proof. destruct c1; reflexivity. Qed.

(** Comparing the tens and then the units is comparing the numbers. *)
Lemma lex_decimal_split (a b : Z) (c : comparison) :
  lex (a / 10 ?= b / 10) (lex (a mod 10 ?= b mod 10) c) = lex (a ?= b) c.
Proof.
  destruct (Z.compare_spec (a / 10) (b / 10)) as [H1|H1|H1];
    destruct (Z.compare_spec (a mod 10) (b mod 10)) as [H2|H2|H2];
    destruct (Z.compare_spec a b) as [H3|H3|H3];
    cbn [lex]; try reflexivity; exfalso;
    revert H1 H2 H3; Z.div_mod_to_equations; lia.
Qed.

Lemma compare_two_digits (a b : Z) (r1 r2 : string) :
  0 <= a < 100 -> 0 <= b < 100 ->
  (two_digits a ++ r1 ?= two_digits b ++ r2)%string
  = lex (a ?= b) (r1 ?= r2)%string.
Proof.
  intros Ha Hb. unfold two_digits. cbn [append].
  rewrite !compare_digit by digit_bound.
  apply lex_decimal_split.
Qed.

Lemma compare_three_digits (a b : Z) (r1 r2 : string) :
  0 <= a < 1000 -> 0 <= b < 1000 ->
  (three_digits a ++ r1 ?= three_digits b ++ r2)%string
  = lex (a ?= b) (r1 ?= r2)%string.
Proof.
  intros Ha Hb. unfold three_digits. cbn [append].
  rewrite !compare_digit by digit_bound.
  rewrite <- (lex_decimal_split a b).
  rewrite <- (lex_decimal_split (a / 10) (b / 10)).
  rewrite !Z.div_div by lia. reflexivity.
Qed.

Lemma compare_four_digits (a b : Z) (r1 r2 : string) :
  0 <= a < 10000 -> 0 <= b < 10000 ->
  (four_digits a ++ r1 ?= four_digits b ++ r2)%string
  = lex (a ?= b) (r1 ?= r2)%string.
Proof.
  intros Ha Hb. unfold four_digits. cbn [append].
  rewrite !compare_digit by digit_bound.
  rewrite <- (lex_decimal_split a b).
  rewrite <- (lex_decimal_split (a / 10) (b / 10)).
  rewrite <- (lex_decimal_split (a / 10 / 10) (b / 10 / 10)).
  rewrite !Z.div_div by lia. reflexivity.
Qed.

Lemma compare_date_text (a b : tm) (r1 r2 : string) :
  calendar_fields a -> calendar_fields b ->
  (date_text a r1 ?= date_text b r2)%string
  = lex (date_compare a b) (r1 ?= r2)%string.
Proof.
  intros (_ & _ & _ & Hda & Hma & Hya) (_ & _ & _ & Hdb & Hmb & Hyb).
  unfold date_text, date_compare.
  rewrite compare_four_digits by lia.
  rewrite compare_cons_same.
  rewrite compare_two_digits by lia.
  rewrite compare_cons_same.
  rewrite compare_two_digits by lia.
  rewrite !lex_assoc.
  replace (tm_year a + 1900 ?= tm_year b + 1900) with (tm_year a ?= tm_year b)
    by (symmetry; apply (compare_shift _ _ (-1900))).
  replace (tm_mon a + 1 ?= tm_mon b + 1) with (tm_mon a ?= tm_mon b)
    by (symmetry; apply (compare_shift _ _ (-1))).
  reflexivity.
Qed.

Lemma compare_date_time_text (a b : tm) (r1 r2 : string) :
  calendar_fields a -> calendar_fields b ->
  (date_time_text a r1 ?= date_time_text b r2)%string
  = lex (lex (date_compare a b) (clock_compare a b)) (r1 ?= r2)%string.
Proof.
  intros Ha Hb. unfold date_time_text.
  rewrite compare_date_text by assumption.
  destruct Ha as (Hsa & Hmia & Hha & _), Hb as (Hsb & Hmib & Hhb & _).
  rewrite compare_cons_same.
  rewrite compare_two_digits by lia.
  rewrite compare_cons_same.
  rewrite compare_two_digits by lia.
  rewrite compare_cons_same.
  rewrite compare_two_digits by lia.
  unfold clock_compare. rewrite !lex_assoc. reflexivity.
Qed.

End FixedWidth.

(* ================================================================== *)
(** ** Two clock readings in order *)
(* ================================================================== *)

Section Readings.

Lemma leb_of_compare (a b : string) :
  (a ?= b)%string <> Gt -> String.leb a b = true.
Proof. unfold String.leb. destruct (a ?= b)%string; congruence. Qed.

(** Of two instants after the epoch, the later has the later second, or the
    same second and a millisecond remainder that is not smaller. *)
Lemma seconds_then_milliseconds (P : platform) (r1 r2 : Z) :
  0 < ticks_per_ms P -> 0 <= r1 -> r1 <= r2 ->
  0 <= to_time_t P r1 <= to_time_t P r2
  /\ (to_time_t P r1 = to_time_t P r2 ->
      milliseconds_of P r1 <= milliseconds_of P r2)
  /\ 0 <= milliseconds_of P r1 <= 999
  /\ 0 <= milliseconds_of P r2 <= 999.
Proof.
  intros Hk H1 H12.
  rewrite !time_t_after_epoch by lia.
  destruct (milliseconds_after_epoch P Hk r1 ltac:(lia)) as [-> B1].
  destruct (milliseconds_after_epoch P Hk r2 ltac:(lia)) as [-> B2].
  rewrite (Z.mul_comm 1000), <- !Z.div_div by lia.
  assert (Hq : r1 / ticks_per_ms P <= r2 / ticks_per_ms P)
    by (apply Z.div_le_mono; lia).
  assert (Hq0 : 0 <= r1 / ticks_per_ms P) by (apply Z.div_pos; lia).
  revert Hq Hq0.
  generalize (r1 / ticks_per_ms P). generalize (r2 / ticks_per_ms P).
  intros q2 q1 Hq Hq0. Z.div_mod_to_equations. lia.
Qed.

Lemma leb_iff_compare (a b : string) :
  String.leb a b = true <-> (a ?= b)%string <> Gt.
Proof.
  unfold String.leb. destruct (a ?= b)%string; split; intros H;
    congruence.
Qed.

Lemma lex_not_Gt (a b : Z) (c : comparison) :
  lex (a ?= b) c <> Gt <-> a < b \/ (a = b /\ c <> Gt).
Proof.
  unfold lex. destruct (Z.compare_spec a b) as [E|L|G]; split; intros H.
  - right. split; assumption.
  - destruct H as [H|[_ H]]; [lia | exact H].
  - left. assumption.
  - discriminate.
  - congruence.
  - lia.
Qed.

(** The POSIX breakdown depends on the local time only. *)
Lemma offtime_depends_on_sum (t1 o1 t2 o2 : Z) (buf : tm) :
  t1 + o1 = t2 + o2 -> offtime t1 o1 buf = offtime t2 o2 buf.
Proof. intros H. unfold offtime. rewrite H. reflexivity. Qed.

(** Between the years 1000 and 9999 the dates of two local times compare
    as their day numbers. *)
Lemma date_compare_of_days (t1 o1 t2 o2 : Z) (buf : tm) :
  year_1000 <= t1 + o1 < year_10000 -> year_1000 <= t2 + o2 < year_10000 ->
  date_compare (snd (offtime t1 o1 buf)) (snd (offtime t2 o2 buf))
  = ((t1 + o1) / 86400 ?= (t2 + o2) / 86400).
Proof.
  intros H1 H2.
  pose proof (offtime_succeeds_from_1000 t1 o1 buf H1) as [S1 _].
  pose proof (offtime_succeeds_from_1000 t2 o2 buf H2) as [S2 _].
  revert S1 S2. unfold offtime.
  set (d1 := (t1 + o1) / 86400). set (d2 := (t2 + o2) / 86400).
  assert (Hcases : forall y1 m1 dd1 y2 m2 dd2,
            civil_from_days d1 = (y1, m1, dd1) ->
            civil_from_days d2 = (y2, m2, dd2) ->
            lex (y1 - 1900 ?= y2 - 1900) (lex (m1 - 1 ?= m2 - 1) (dd1 ?= dd2))
            = (d1 ?= d2)).
  { intros y1 m1 dd1 y2 m2 dd2 E1 E2. rewrite !compare_shift.
    destruct (Z.compare_spec d1 d2) as [E|L|G].
    - rewrite E, E2 in E1. injection E1 as -> -> ->.
      rewrite !Z.compare_refl. reflexivity.
    - pose proof (civil_from_days_increasing d1 d2 L) as H.
      rewrite E1, E2 in H. exact H.
    - pose proof (civil_from_days_increasing d2 d1 G) as H.
      rewrite E1, E2 in H.
      rewrite (Z.compare_antisym y2 y1), (Z.compare_antisym m2 m1),
        (Z.compare_antisym dd2 dd1).
      revert H. unfold lex.
      destruct (y2 ?= y1); cbn [CompOpp]; try congruence.
      destruct (m2 ?= m1); cbn [CompOpp]; try congruence.
      destruct (dd2 ?= dd1); cbn [CompOpp]; congruence. }
  destruct (civil_from_days d1) as [[y1 m1] dd1].
  destruct (civil_from_days d2) as [[y2 m2] dd2].
  destruct ((INT_MIN <=? y1 - 1900) && (y1 - 1900 <=? INT_MAX));
    [|discriminate].
  destruct ((INT_MIN <=? y2 - 1900) && (y2 - 1900 <=? INT_MAX));
    [|discriminate].
  intros _ _. unfold date_compare.
  cbn [snd tm_sec tm_min tm_hour tm_mday tm_mon tm_year].
  apply Hcases; reflexivity.
Qed.

Lemma compare_date_of_local_days (t1 o1 t2 o2 : Z) :
  year_1000 <= t1 + o1 < year_10000 -> year_1000 <= t2 + o2 < year_10000 ->
  (put_time (snd (offtime t1 o1 tm_zero)) "%F"
   ?= put_time (snd (offtime t2 o2 tm_zero)) "%F")%string
  = ((t1 + o1) / 86400 ?= (t2 + o2) / 86400).
Proof.
  intros H1 H2.
  destruct (offtime_succeeds_from_1000 t1 o1 tm_zero H1) as [_ F1].
  destruct (offtime_succeeds_from_1000 t2 o2 tm_zero H2) as [_ F2].
  rewrite <- (app_nil_r (put_time (snd (offtime t1 o1 tm_zero)) "%F")),
    <- (app_nil_r (put_time (snd (offtime t2 o2 tm_zero)) "%F")).
  rewrite !put_time_date_form, compare_date_text by assumption.
  rewrite date_compare_of_days by assumption.
  unfold lex. destruct (_ ?= _); reflexivity.
Qed.

(** And the date-time texts compare as the local times, whatever follows. *)
Lemma compare_date_time_of_local_seconds
  (t1 o1 t2 o2 : Z) (r1 r2 : string) :
  year_1000 <= t1 + o1 < year_10000 -> year_1000 <= t2 + o2 < year_10000 ->
  (put_time (snd (offtime t1 o1 tm_zero)) "%FT%H:%M:%S" ++ r1
   ?= put_time (snd (offtime t2 o2 tm_zero)) "%FT%H:%M:%S" ++ r2)%string
  = lex (t1 + o1 ?= t2 + o2) (r1 ?= r2)%string.
Proof.
  intros H1 H2.
  destruct (offtime_succeeds_from_1000 t1 o1 tm_zero H1) as [_ F1].
  destruct (offtime_succeeds_from_1000 t2 o2 tm_zero H2) as [_ F2].
  destruct (Z.compare_spec (t1 + o1) (t2 + o2)) as [E|Hlt|Hgt]; cbn [lex].
  - rewrite (offtime_depends_on_sum t1 o1 t2 o2 tm_zero E).
    apply compare_app_same.
  - rewrite !put_time_date_time_form, compare_date_time_text by assumption.
    rewrite (offtime_increasing_from_1000 t1 o1 t2 o2 tm_zero) by lia.
    reflexivity.
  - rewrite String.compare_antisym.
    rewrite !put_time_date_time_form, compare_date_time_text by assumption.
    rewrite (offtime_increasing_from_1000 t2 o2 t1 o1 tm_zero) by lia.
    reflexivity.
Qed.

(** Whether the renderings of two local times are in order. *)
Lemma renderings_in_order (t1 t2 o1 o2 ms1 ms2 : Z) (suffix : string) :
  year_1000 <= t1 + o1 < year_10000 -> year_1000 <= t2 + o2 < year_10000 ->
  let b1 := snd (offtime t1 o1 tm_zero) in
  let b2 := snd (offtime t2 o2 tm_zero) in
  (String.leb (put_time b1 "%F") (put_time b2 "%F") = true
   <-> (t1 + o1) / 86400 <= (t2 + o2) / 86400)
  /\ (String.leb (put_time b1 "%FT%H:%M:%S" ++ suffix)
        (put_time b2 "%FT%H:%M:%S" ++ suffix) = true
      <-> t1 + o1 <= t2 + o2)
  /\ (0 <= ms1 <= 999 -> 0 <= ms2 <= 999 ->
      (String.leb
         (put_time b1 "%FT%H:%M:%S" ++ "."
          ++ get_formatted_milliseconds ms1 ++ suffix)
         (put_time b2 "%FT%H:%M:%S" ++ "."
          ++ get_formatted_milliseconds ms2 ++ suffix) = true
       <-> t1 + o1 < t2 + o2 \/ (t1 + o1 = t2 + o2 /\ ms1 <= ms2))).
Proof.
  intros H1 H2 b1 b2. subst b1 b2.
  split; [|split]; [| |intros B1 B2]; rewrite leb_iff_compare.
  - rewrite compare_date_of_local_days by assumption.
    rewrite Z.compare_le_iff. reflexivity.
  - rewrite compare_date_time_of_local_seconds by assumption.
    rewrite compare_refl, lex_not_Gt. split.
    + intros [H|[H _]]; lia.
    + intros H. destruct (Z.eq_dec (t1 + o1) (t2 + o2)) as [E|N].
      * right. split; [exact E | discriminate].
      * left. lia.
  - rewrite compare_date_time_of_local_seconds by assumption.
    cbn [append]. rewrite compare_cons_same.
    rewrite !formatted_milliseconds_three_digits by assumption.
    rewrite compare_three_digits, compare_refl by lia.
    rewrite lex_not_Gt.
    assert (Hms : lex (ms1 ?= ms2) Eq <> Gt <-> ms1 <= ms2).
    { unfold lex. destruct (Z.compare_spec ms1 ms2) as [E|L|G];
        split; intros H; try congruence; lia. }
    rewrite Hms. reflexivity.
Qed.

Lemma time_t_monotone (P : platform) (r1 r2 : Z) :
  0 < ticks_per_ms P -> r1 <= r2 -> to_time_t P r1 <= to_time_t P r2.
Proof.
  intros Hk H. unfold to_time_t, duration_cast_seconds.
  apply Z.quot_le_mono; lia.
Qed.

End Readings.

(* ================================================================== *)
(** ** At or after the epoch *)
(* ================================================================== *)

Section AfterEpoch.

Lemma substring_prefix (a b : string) :
  substring 0 (String.length a) (a ++ b) = a.
Proof.
  induction a as [|c a IH]; cbn [String.length append substring].
  - destruct b; reflexivity.
  - now rewrite IH.
Qed.

Lemma remove_last_app (a b : string) :
  remove_last (String.length b) (a ++ b) = a.
Proof.
  unfold remove_last. rewrite length_app.
  replace (String.length a + String.length b - String.length b)%nat
    with (String.length a) by lia.
  apply substring_prefix.
Qed.

(** For instants at or after the epoch the date-time string is the
    timestamp string without its last four characters, a point and three
    digits. *)
Lemma date_time_from_timestamp_after_epoch
  (P : platform) (time_point : option Chrono.time_point) (w : world) :
  0 < ticks_per_ms P -> 0 <= resolved time_point w ->
  remove_last 4 (fst (get_current_iso_date_timestamp P time_point w))
  = fst (get_current_iso_date_time P time_point w)
  /\ exists ms, 0 <= ms <= 999
       /\ fst (get_current_iso_date_timestamp P time_point w)
          = fst (get_current_iso_date_time P time_point w)
            ++ "." ++ three_digits ms.
Proof.
  intros Hk Hi.
  destruct (milliseconds_after_epoch P Hk _ Hi) as [_ Hms].
  rewrite timestamp_extends_date_time.
  rewrite formatted_milliseconds_three_digits by assumption.
  split.
  - apply (remove_last_app _ ("." ++ three_digits _)).
  - eexists. split; [exact Hms | reflexivity].
Qed.

(** On a POSIX host, every instant whose local time (UTC time, for the
    UTC forms) lies between the years 1000 and 9999 has its date and
    date-time strings in the grammar of their forms, before the epoch too;
    if the instant is at or after the epoch, so has its timestamp string. *)
Lemma posix_field_widths
  (utc : bool) (k : Z) (zone : Z -> Z)
  (time_point : option Chrono.time_point) (w : world) :
  let P := posix_platform k zone in
  let t := to_time_t P (resolved time_point w) in
  0 < k ->
  year_1000 <= t + offset_at utc zone t < year_10000 ->
  matches_grammar "YYYY-MM-DD" (fst (date_entry utc P time_point w)) = true
  /\ matches_grammar ("YYYY-MM-DDTHH:MM:SS" ++ zone_suffix utc)
       (fst (date_time_entry utc P time_point w)) = true
  /\ (0 <= resolved time_point w ->
      matches_grammar ("YYYY-MM-DDTHH:MM:SS.mmm" ++ zone_suffix utc)
        (fst (date_timestamp_entry utc P time_point w)) = true).
Proof.
  intros P t Hk Ht.
  destruct (offtime_succeeds_from_1000 t (offset_at utc zone t) tm_zero Ht)
    as [_ Hb].
  assert (Hms : 0 <= resolved time_point w ->
                0 <= milliseconds_of P (resolved time_point w) <= 999).
  { intros Hi. apply (milliseconds_after_epoch P Hk _ Hi). }
  destruct utc; cbn [date_entry date_time_entry date_timestamp_entry
                       zone_suffix offset_at] in *.
  - rewrite run_utc_iso_date, run_utc_iso_date_time,
      run_utc_iso_date_timestamp.
    change (to_utc_tm P (to_time_t P (resolved time_point w)))
      with (snd (offtime t 0 tm_zero)).
    rewrite date_grammar, date_time_grammar by assumption.
    split; [reflexivity|]. split; [reflexivity|]. intros Hi.
    rewrite timestamp_grammar by (assumption || apply Hms, Hi). reflexivity.
  - rewrite run_iso_date, run_iso_date_time, run_iso_date_timestamp.
    change (to_local_tm P (to_time_t P (resolved time_point w)))
      with (snd (offtime t (zone t) tm_zero)).
    rewrite <- (app_nil_r (get_formatted_milliseconds _)).
    rewrite <- (app_nil_r (put_time _ "%FT%H:%M:%S")) at 1.
    rewrite date_grammar, date_time_grammar by assumption.
    split; [reflexivity|]. split; [reflexivity|]. intros Hi.
    rewrite timestamp_grammar by (assumption || apply Hms, Hi). reflexivity.
Qed.

End AfterEpoch.

(* ================================================================== *)
(** ** The platform model on known values *)
(* ================================================================== *)

Section KnownValues.

(** Known dates of the proleptic Gregorian calendar. *)
Example civil_from_days_known :
  civil_from_days 0 = (1970, 1, 1)
  /\ civil_from_days (-1) = (1969, 12, 31)
  /\ civil_from_days 11016 = (2000, 2, 29)
  /\ civil_from_days 11017 = (2000, 3, 1)
  /\ civil_from_days (-25508) = (1900, 3, 1)
  /\ civil_from_days (-25509) = (1900, 2, 28)
  /\ civil_from_days 19727 = (2024, 1, 5)
  /\ civil_from_days 2932896 = (9999, 12, 31)
  /\ civil_from_days 2932897 = (10000, 1, 1).
Proof. repeat split; vm_compute; reflexivity. Qed.

(** The two ends of a 64-bit nanosecond clock, and a second before 1970. *)
Example gmtime_known :
  offtime 9223372036 0 tm_zero = (true, mk_tm 16 47 23 11 3 362)
  /\ offtime (-9223372036) 0 tm_zero = (true, mk_tm 44 12 0 21 8 (-223))
  /\ offtime (-1) 0 tm_zero = (true, mk_tm 59 59 23 31 11 69).
Proof. repeat split; vm_compute; reflexivity. Qed.

(** Stream insertion of the millisecond count, and the number conversions
    of [strftime]. *)
Example formatting_known :
  get_formatted_milliseconds 7 = "007"
  /\ get_formatted_milliseconds 0 = "000"
  /\ get_formatted_milliseconds 999 = "999"
  /\ get_formatted_milliseconds (-7) = "0-7"
  /\ fmt_number 2 5 = "05"
  /\ fmt_number 1 2024 = "2024"
  /\ put_time (mk_tm 5 4 3 5 0 124) "%FT%H:%M:%S" = "2024-01-05T03:04:05"
  /\ put_time tm_zero "%FT%H:%M:%S" = "1900-01-00T00:00:00".
Proof. repeat split; vm_compute; reflexivity. Qed.

(** With 64-bit nanosecond ticks the POSIX conversion cannot fail: the year
    always fits. *)
Lemma linux_conversion_never_fails (i : Chrono.time_point) (zone : Z -> Z) :
  representable i ->
  fst (gmtime_r (linux zone) (to_time_t (linux zone) i) tm_zero) = true.
Proof.
  intros [Hlo Hhi].
  change (gmtime_r (linux zone)) with (fun t buf => offtime t 0 buf).
  change (to_time_t (linux zone) i) with (Z.quot i (1000 * 1000000)).
  cbv beta. set (t := Z.quot i (1000 * 1000000)).
  assert (Ht : -9223372036 <= t <= 9223372036).
  { subst t. change (2 ^ 63) with 9223372036854775808 in *.
    change (1000 * 1000000) with 1000000000.
    destruct (Z.le_gt_cases 0 i).
    - rewrite Z.quot_div_nonneg by lia. Z.div_mod_to_equations. lia.
    - rewrite <- (Z.opp_involutive i), Z.quot_opp_l by lia.
      rewrite Z.quot_div_nonneg by lia. Z.div_mod_to_equations. lia. }
  unfold offtime.
  assert (Hd : -106752 <= (t + 0) / 86400 <= 106751).
  { Z.div_mod_to_equations. lia. }
  revert Hd. generalize ((t + 0) / 86400). intros z Hz.
  assert (Hy : let '(y, _, _) := civil_from_days z in 1677 <= y <= 2262).
  { assert (Hlo' : civil_from_days (-106752) = (1677, 9, 21))
      by (vm_compute; reflexivity).
    assert (Hhi' : civil_from_days 106751 = (2262, 4, 11))
      by (vm_compute; reflexivity).
    destruct (civil_from_days z) as [[y m] d] eqn:E.
    split.
    - destruct (Z.eq_dec z (-106752)) as [->|Hne].
      + rewrite Hlo' in E. injection E as <- _ _. lia.
      + pose proof (civil_from_days_increasing (-106752) z ltac:(lia)) as H.
        rewrite Hlo', E in H. apply lex_Lt_le in H. exact H.
    - destruct (Z.eq_dec z 106751) as [->|Hne].
      + rewrite Hhi' in E. injection E as <- _ _. lia.
      + pose proof (civil_from_days_increasing z 106751 ltac:(lia)) as H.
        rewrite Hhi', E in H. apply lex_Lt_le in H. exact H. }
  destruct (civil_from_days z) as [[y m] d].
  assert (Hint : (INT_MIN <=? y - 1900) && (y - 1900 <=? INT_MAX) = true).
  { unfold INT_MIN, INT_MAX. apply andb_true_iff.
    split; apply Z.leb_le; lia. }
  cbv beta iota zeta. rewrite Hint. reflexivity.
Qed.

End KnownValues.

(* ================================================================== *)
(** ** The claims *)
(* ================================================================== *)

(** C1, as stated, fails: the UTC date form appends nothing, so at the
    epoch it returns 1970-01-01, which does not end with Z. *)
Lemma C1_utc_date_has_no_Z_suffix :
  fst (get_current_utc_iso_date (linux zone_utc) (Some 0) (ticking 0 1))
  = "1970-01-01"
  /\ ends_with_char "Z"
       (fst (get_current_utc_iso_date (linux zone_utc) (Some 0) (ticking 0 1)))
     = false.
Proof. split; vm_compute; reflexivity. Qed.

(** C1, amended: on every platform and for every instant, given or read
    from the clock, the UTC date-time and UTC timestamp strings end with Z,
    while the UTC date string and the three local strings contain no Z. *)
Theorem C1_Z_suffix_on_utc_times_only
  (P : platform) (time_point : option Chrono.time_point) (w : world) :
  ends_with_char "Z" (fst (get_current_utc_iso_date_time P time_point w)) = true
  /\ ends_with_char "Z"
       (fst (get_current_utc_iso_date_timestamp P time_point w)) = true
  /\ contains_char "Z" (fst (get_current_utc_iso_date P time_point w)) = false
  /\ contains_char "Z" (fst (get_current_iso_date P time_point w)) = false
  /\ contains_char "Z" (fst (get_current_iso_date_time P time_point w)) = false
  /\ contains_char "Z"
       (fst (get_current_iso_date_timestamp P time_point w)) = false.
Proof.
  rewrite run_utc_iso_date_time, run_utc_iso_date_timestamp, run_utc_iso_date,
    run_iso_date, run_iso_date_time, run_iso_date_timestamp.
  repeat split.
  - apply ends_with_char_snoc.
  - rewrite <- (app_assoc _ "."), <- app_assoc. apply ends_with_char_snoc.
  - apply put_time_date_no_Z.
  - apply put_time_date_no_Z.
  - apply put_time_date_time_no_Z.
  - rewrite !contains_char_app, put_time_date_time_no_Z,
      formatted_milliseconds_no_Z.
    reflexivity.
Qed.

(** C2, at an instant one millisecond before the epoch (-1000000 ticks of a
    nanosecond clock): the non-negative remainder of the epoch milliseconds
    is 999, the value the code embeds is -1, and the strings show it. *)
Theorem C2_millisecond_before_epoch_is_negative :
  representable (-1000000)
  /\ (-1000000 / ticks_per_ms (linux zone_utc)) mod 1000 = 999
  /\ milliseconds_of (linux zone_utc) (-1000000) = -1
  /\ fst (get_current_utc_iso_date_timestamp (linux zone_utc)
            (Some (-1000000)) (ticking 0 1))
     = "1970-01-01T00:00:00.0-1Z"
  /\ fst (get_current_iso_date_timestamp (linux zone_utc)
            (Some (-1000000)) (ticking 0 1))
     = "1970-01-01T00:00:00.0-1".
Proof.
  repeat split; try (vm_compute; reflexivity); vm_compute; discriminate.
Qed.

(** C4: on a POSIX host of any tick length whose local zone is UTC, the
    instant 1704423845006 ms after the epoch (2024-01-05T03:04:05.006 UTC)
    gives the four strings of the end-to-end example. *)
Theorem C4_end_to_end_example
  (k : Z) (zone : Z -> Z) (w : world) :
  0 < k ->
  (forall t, zone t = 0) ->
  let P := posix_platform k zone in
  let I := Some (1704423845006 * k) in
  fst (get_current_iso_date_time P I w) = "2024-01-05T03:04:05"
  /\ fst (get_current_iso_date_timestamp P I w) = "2024-01-05T03:04:05.006"
  /\ fst (get_current_utc_iso_date_time P I w) = "2024-01-05T03:04:05Z"
  /\ fst (get_current_utc_iso_date_timestamp P I w)
     = "2024-01-05T03:04:05.006Z".
Proof.
  intros Hk Hzone P I.
  assert (Ht : to_time_t P (1704423845006 * k) = 1704423845).
  { unfold to_time_t, duration_cast_seconds, P. cbn [ticks_per_ms posix_platform].
    rewrite Z.quot_mul_cancel_r by lia. reflexivity. }
  assert (Hms : milliseconds_of P (1704423845006 * k) = 6).
  { unfold milliseconds_of, duration_cast_milliseconds, duration_rem, P.
    cbn [ticks_per_ms posix_platform].
    rewrite Z.quot_mul by lia. reflexivity. }
  assert (Hutc : to_utc_tm P 1704423845 = mk_tm 5 4 3 5 0 124).
  { vm_compute. reflexivity. }
  assert (Hloc : to_local_tm P 1704423845 = mk_tm 5 4 3 5 0 124).
  { unfold to_local_tm, P. cbn [localtime_r posix_platform].
    rewrite Hzone. vm_compute. reflexivity. }
  subst I.
  rewrite run_iso_date_time, run_iso_date_timestamp, run_utc_iso_date_time,
    run_utc_iso_date_timestamp.
  cbn [resolved]. rewrite Ht, Hms, Hutc, Hloc.
  repeat split; vm_compute; reflexivity.
Qed.

Lemma C4_end_to_end_witness :
  0 < 1000000
  /\ (forall t, zone_utc t = 0)
  /\ fst (get_current_iso_date_time (linux zone_utc)
            (Some 1704423845006000000) (ticking 0 1))
     = "2024-01-05T03:04:05"
  /\ fst (get_current_utc_iso_date_timestamp (linux zone_utc)
            (Some 1704423845006000000) (ticking 0 1))
     = "2024-01-05T03:04:05.006Z".
Proof.
  split; [lia|]. split; [reflexivity|].
  pose proof (C4_end_to_end_example 1000000 zone_utc (ticking 0 1)
                ltac:(lia) (fun t => eq_refl)) as H.
  cbv zeta in H. destruct H as (H1 & _ & _ & H4).
  split; [exact H1 | exact H4].
Defined.

(** C5, as stated, fails: with the microsecond clock of libc++ the first
    instant of the year 10000 is representable, and its UTC date has a year
    of five digits. *)
Lemma C5_year_10000_has_five_digits :
  representable 253402300800000000
  /\ fst (get_current_utc_iso_date (macos zone_utc)
            (Some 253402300800000000) (ticking 0 1))
     = "10000-01-01"
  /\ matches_grammar "YYYY-MM-DD"
       (fst (get_current_utc_iso_date (macos zone_utc)
               (Some 253402300800000000) (ticking 0 1)))
     = false.
Proof.
  repeat split; try (vm_compute; reflexivity); vm_compute; discriminate.
Qed.

(** C5, amended: when the breakdown delivered for the instant (local or
    UTC) has its fields in the calendar ranges and a year from 1000 to 9999,
    the date and date-time strings of that zone have a 4-digit year and
    2-digit month, day, hour, minute and second; if moreover the instant is
    at or after the epoch, the timestamp string has these and a 3-digit
    millisecond field. *)
Theorem C5_field_widths
  (utc : bool) (P : platform) (time_point : option Chrono.time_point)
  (w : world) :
  calendar_fields
    (snd (platform_conversion utc P (to_time_t P (resolved time_point w))
            tm_zero)) ->
  matches_grammar "YYYY-MM-DD" (fst (date_entry utc P time_point w)) = true
  /\ matches_grammar ("YYYY-MM-DDTHH:MM:SS" ++ zone_suffix utc)
       (fst (date_time_entry utc P time_point w)) = true
  /\ (0 < ticks_per_ms P -> 0 <= resolved time_point w ->
      matches_grammar ("YYYY-MM-DDTHH:MM:SS.mmm" ++ zone_suffix utc)
        (fst (date_timestamp_entry utc P time_point w)) = true).
Proof.
  intros Hb.
  pose proof date_grammar as Hdate.
  pose proof date_time_grammar as Htime.
  pose proof timestamp_grammar as Hstamp.
  destruct utc; cbn [platform_conversion date_entry date_time_entry
                       date_timestamp_entry zone_suffix] in *.
  - rewrite run_utc_iso_date, run_utc_iso_date_time,
      run_utc_iso_date_timestamp.
    unfold to_utc_tm. split; [|split].
    + apply Hdate; assumption.
    + rewrite Htime by assumption. reflexivity.
    + intros Hk Hi.
      rewrite Hstamp;
        [reflexivity | assumption | apply milliseconds_after_epoch; lia].
  - rewrite run_iso_date, run_iso_date_time, run_iso_date_timestamp.
    unfold to_local_tm. split; [|split].
    + apply Hdate; assumption.
    + rewrite <- (app_nil_r (put_time _ "%FT%H:%M:%S")).
      rewrite Htime by assumption. reflexivity.
    + intros Hk Hi.
      rewrite <- (app_nil_r (get_formatted_milliseconds _)).
      rewrite Hstamp;
        [reflexivity | assumption | apply milliseconds_after_epoch; lia].
Qed.

Lemma C5_field_widths_witness :
  calendar_fields
    (snd (platform_conversion true (linux zone_utc)
            (to_time_t (linux zone_utc)
               (resolved (Some 1704423845006000000) (ticking 0 1)))
            tm_zero))
  /\ matches_grammar "YYYY-MM-DD"
       (fst (date_entry true (linux zone_utc) (Some 1704423845006000000)
               (ticking 0 1))) = true
  /\ matches_grammar "YYYY-MM-DDTHH:MM:SSZ"
       (fst (date_time_entry true (linux zone_utc)
               (Some 1704423845006000000) (ticking 0 1))) = true.
Proof.
  assert (H : calendar_fields
    (snd (platform_conversion true (linux zone_utc)
            (to_time_t (linux zone_utc)
               (resolved (Some 1704423845006000000) (ticking 0 1)))
            tm_zero))).
  { vm_compute. repeat split; discriminate. }
  split; [exact H|].
  destruct (C5_field_widths true (linux zone_utc)
              (Some 1704423845006000000) (ticking 0 1) H) as (H1 & H2 & _).
  split; [exact H1 | exact H2].
Defined.

(** C6, at instants 7 ms and 123 ms before the epoch on a nanosecond clock:
    the field after the point is "0-7" and "-123", not three digits. *)
Theorem C6_millisecond_field_before_epoch :
  get_formatted_milliseconds (milliseconds_of (linux zone_utc) (-7000000))
  = "0-7"
  /\ fst (get_current_utc_iso_date_timestamp (linux zone_utc)
            (Some (-7000000)) (ticking 0 1))
     = "1970-01-01T00:00:00.0-7Z"
  /\ get_formatted_milliseconds (milliseconds_of (linux zone_utc) (-123000000))
     = "-123"
  /\ fst (get_current_iso_date_timestamp (linux zone_utc)
            (Some (-123000000)) (ticking 0 1))
     = "1970-01-01T00:00:00.-123"
  /\ all_chars is_digit
       (get_formatted_milliseconds
          (milliseconds_of (linux zone_utc) (-7000000))) = false.
Proof. repeat split; vm_compute; reflexivity. Qed.

(** C7, at the instant 250 ms before the epoch on a nanosecond clock with
    the local zone UTC: the timestamp ends in ".-250", so dropping a point
    and three digits from its end does not give the date-time string. *)
Theorem C7_prefix_before_epoch :
  let P := linux zone_utc in
  let I := Some (-250000000) in
  fst (get_current_iso_date_time P I (ticking 0 1)) = "1970-01-01T00:00:00"
  /\ fst (get_current_iso_date_timestamp P I (ticking 0 1))
     = "1970-01-01T00:00:00.-250"
  /\ remove_last 4 (fst (get_current_iso_date_timestamp P I (ticking 0 1)))
     = "1970-01-01T00:00:00."
  /\ remove_last 4 (fst (get_current_iso_date_timestamp P I (ticking 0 1)))
     <> fst (get_current_iso_date_time P I (ticking 0 1)).
Proof.
  cbv zeta. repeat split; try (vm_compute; reflexivity).
  vm_compute. discriminate.
Qed.

(** C8, as stated, fails: in Europe/London the clock reads
    2024-10-27T00:59:59Z and then, one second later, 2024-10-27T01:00:00Z,
    when summer time ends.  The readings are in order, yet the second local
    date-time string is smaller than the first. *)
Lemma C8_local_time_steps_back :
  let w := two_readings 1729990799000000000 1729990800000000000 in
  clock w 0 <= clock w 1
  /\ twice (get_current_iso_date_time_0 (linux zone_london_autumn_2024)) w
     = ("2024-10-27T01:59:59", "2024-10-27T01:00:00")
  /\ String.leb "2024-10-27T01:59:59" "2024-10-27T01:00:00" = false.
Proof.
  cbv zeta. repeat split; try (vm_compute; reflexivity).
  vm_compute. discriminate.
Qed.

(** C8, amended: on a POSIX host, take two successive calls of the same
    entry point without argument, the second clock reading not earlier
    than the first, both converted local times (UTC times for the UTC
    forms) between the years 1000 and 9999.  The second date-time string is
    not smaller than the first exactly when the local time at the second
    reading is not earlier than at the first; the second date string,
    exactly when the local day is not earlier; and, with the first reading
    at or after the epoch, the second timestamp string, exactly when the
    local time is later, or the same with a millisecond remainder that is
    not smaller.  So all three are in order whenever the UTC offset applied
    at the second reading is not smaller than at the first, and always for
    the UTC forms. *)
Theorem C8_successive_calls_in_order
  (utc : bool) (k : Z) (zone : Z -> Z) (w : world) :
  let P := posix_platform k zone in
  let r1 := clock w (reads w) in
  let r2 := clock w (S (reads w)) in
  let o1 := offset_at utc zone (to_time_t P r1) in
  let o2 := offset_at utc zone (to_time_t P r2) in
  let u1 := to_time_t P r1 + o1 in
  let u2 := to_time_t P r2 + o2 in
  let in_order (call : M string) :=
    let (s1, s2) := twice call w in String.leb s1 s2 = true in
  0 < k ->
  r1 <= r2 ->
  year_1000 <= u1 < year_10000 -> year_1000 <= u2 < year_10000 ->
  (in_order (date_entry_0 utc P) <-> u1 / 86400 <= u2 / 86400)
  /\ (in_order (date_time_entry_0 utc P) <-> u1 <= u2)
  /\ (0 <= r1 ->
      (in_order (date_timestamp_entry_0 utc P)
       <-> u1 < u2
           \/ (u1 = u2 /\ milliseconds_of P r1 <= milliseconds_of P r2)))
  /\ (utc = true \/ o1 <= o2 ->
      in_order (date_entry_0 utc P)
      /\ in_order (date_time_entry_0 utc P)
      /\ (0 <= r1 -> in_order (date_timestamp_entry_0 utc P))).
Proof.
  intros P r1 r2 o1 o2 u1 u2 in_order Hk H12 Hu1 Hu2.
  assert (Hk' : 0 < ticks_per_ms P) by exact Hk.
  pose proof (time_t_monotone P r1 r2 Hk' H12) as Ht.
  pose proof (renderings_in_order (to_time_t P r1) (to_time_t P r2) o1 o2
                (milliseconds_of P r1) (milliseconds_of P r2)
                (zone_suffix utc) Hu1 Hu2) as Hord.
  cbv zeta in Hord. fold u1 u2 in Hord. destruct Hord as (Hd & Hdt & Hts).
  assert (Hb1 : snd (platform_conversion utc P (to_time_t P r1) tm_zero)
                = snd (offtime (to_time_t P r1) o1 tm_zero)).
  { subst o1. destruct utc; reflexivity. }
  assert (Hb2 : snd (platform_conversion utc P (to_time_t P r2) tm_zero)
                = snd (offtime (to_time_t P r2) o2 tm_zero)).
  { subst o2. destruct utc; reflexivity. }
  rewrite <- Hb1, <- Hb2 in Hd, Hdt, Hts. clear Hb1 Hb2.
  assert (Hdate : in_order (date_entry_0 utc P) <-> u1 / 86400 <= u2 / 86400).
  { subst in_order. destruct utc; exact Hd. }
  assert (Htime : in_order (date_time_entry_0 utc P) <-> u1 <= u2).
  { subst in_order.
    destruct utc; cbn [platform_conversion zone_suffix] in Hdt;
      [exact Hdt | rewrite !app_nil_r in Hdt; exact Hdt]. }
  assert (Hstamp : 0 <= r1 ->
            (in_order (date_timestamp_entry_0 utc P)
             <-> u1 < u2
                 \/ (u1 = u2
                     /\ milliseconds_of P r1 <= milliseconds_of P r2))).
  { intros H1.
    destruct (seconds_then_milliseconds P r1 r2 Hk' H1 H12)
      as (_ & _ & B1 & B2).
    specialize (Hts B1 B2). subst in_order.
    destruct utc; cbn [platform_conversion zone_suffix] in Hts;
      [exact Hts | rewrite !app_nil_r in Hts; exact Hts]. }
  split; [exact Hdate|]. split; [exact Htime|]. split; [exact Hstamp|].
  intros Hoff.
  assert (Ho : o1 <= o2).
  { destruct Hoff as [->|Ho]; [|exact Ho]. subst o1 o2. cbn [offset_at]. lia. }
  assert (Hsame : to_time_t P r1 = to_time_t P r2 -> o1 = o2).
  { intros E. subst o1 o2. rewrite E. reflexivity. }
  assert (Hu : u1 <= u2) by (subst u1 u2; lia).
  split; [|split].
  - apply Hdate. apply Z.div_le_mono; lia.
  - apply Htime, Hu.
  - intros H1. apply (Hstamp H1).
    destruct (Z.eq_dec (to_time_t P r1) (to_time_t P r2)) as [E|N].
    + right. split; [subst u1 u2; rewrite (Hsame E), E; reflexivity|].
      destruct (seconds_then_milliseconds P r1 r2 Hk' H1 H12)
        as (_ & Hms & _ & _).
      apply Hms, E.
    + left. subst u1 u2. lia.
Qed.

Lemma C8_successive_calls_witness :
  let w := two_readings 1711846799000000000 1711846800000000000 in
  let P := linux zone_london_spring_2024 in
  0 < 1000000
  /\ clock w 0 <= clock w 1
  /\ year_1000 <= 1711846799 + 0 < year_10000
  /\ year_1000 <= 1711846800 + 3600 < year_10000
  /\ twice (get_current_iso_date_time_0 P) w
     = ("2024-03-31T00:59:59", "2024-03-31T02:00:00")
  /\ String.leb
       (fst (twice (get_current_iso_date_time_0 P) w))
       (snd (twice (get_current_iso_date_time_0 P) w)) = true.
Proof.
  cbv zeta.
  assert (Hk : 0 < 1000000) by lia.
  assert (H12 : 1711846799000000000 <= 1711846800000000000) by lia.
  assert (Hu1 : year_1000 <= 1711846799 + 0 < year_10000)
    by (vm_compute; split; [discriminate | reflexivity]).
  assert (Hu2 : year_1000 <= 1711846800 + 3600 < year_10000)
    by (vm_compute; split; [discriminate | reflexivity]).
  assert (Hu : 1711846799 + 0 <= 1711846800 + 3600) by lia.
  split; [exact Hk|]. split; [exact H12|]. split; [exact Hu1|].
  split; [exact Hu2|]. split; [vm_compute; reflexivity|].
  exact (proj2 (proj1 (proj2
           (C8_successive_calls_in_order false 1000000
              zone_london_spring_2024
              (two_readings 1711846799000000000 1711846800000000000)
              Hk H12 Hu1 Hu2))) Hu).
Defined.

(** C9: each overload without argument is the optional-instant form applied
    to the empty optional, as a computation on the same world; and its
    string is the one the optional-instant form returns for the instant the
    clock gives at that reading. *)
Theorem C9_zero_argument_forms (P : platform) (w : world) :
  (get_current_iso_date_0 P w = get_current_iso_date P None w
   /\ get_current_iso_date_time_0 P w = get_current_iso_date_time P None w
   /\ get_current_iso_date_timestamp_0 P w
      = get_current_iso_date_timestamp P None w
   /\ get_current_utc_iso_date_0 P w = get_current_utc_iso_date P None w
   /\ get_current_utc_iso_date_time_0 P w
      = get_current_utc_iso_date_time P None w
   /\ get_current_utc_iso_date_timestamp_0 P w
      = get_current_utc_iso_date_timestamp P None w)
  /\ (let I := Some (clock w (reads w)) in
      fst (get_current_iso_date_0 P w) = fst (get_current_iso_date P I w)
      /\ fst (get_current_iso_date_time_0 P w)
         = fst (get_current_iso_date_time P I w)
      /\ fst (get_current_iso_date_timestamp_0 P w)
         = fst (get_current_iso_date_timestamp P I w)
      /\ fst (get_current_utc_iso_date_0 P w)
         = fst (get_current_utc_iso_date P I w)
      /\ fst (get_current_utc_iso_date_time_0 P w)
         = fst (get_current_utc_iso_date_time P I w)
      /\ fst (get_current_utc_iso_date_timestamp_0 P w)
         = fst (get_current_utc_iso_date_timestamp P I w)).
Proof. repeat split. Qed.

(** C10, as stated, fails: the zone setting reaches the UTC conversion
    too.  Under [TZ=UTC] the instant 1729990799 s is rendered
    2024-10-27T00:59:59Z; under [TZ=right/UTC], where 27 leap seconds are
    taken off first, the same instant is rendered 2024-10-27T00:59:32Z. *)
Lemma C10_utc_output_depends_on_zone_setting :
  fst (get_current_utc_iso_date_time (linux zone_utc)
         (Some 1729990799000000000) (ticking 0 1))
  = "2024-10-27T00:59:59Z"
  /\ fst (get_current_utc_iso_date_time linux_right_utc
            (Some 1729990799000000000) (ticking 0 1))
     = "2024-10-27T00:59:32Z"
  /\ fst (get_current_utc_iso_date_time (linux zone_utc)
            (Some 1729990799000000000) (ticking 0 1))
     <> fst (get_current_utc_iso_date_time linux_right_utc
               (Some 1729990799000000000) (ticking 0 1)).
Proof.
  repeat split; try (vm_compute; reflexivity). vm_compute. discriminate.
Qed.

(** C10, amended: the three UTC strings of an explicit instant depend on
    the instant, the clock tick and the UTC conversion of the platform
    only, never on the local conversion: two hosts with the same clock
    tick and the same UTC conversion, whatever their local conversions,
    return the same three UTC strings for the same explicit instant. *)
Theorem C10_utc_forms_ignore_local_zone
  (P1 P2 : platform) (I : Chrono.time_point) (w1 w2 : world) :
  ticks_per_ms P1 = ticks_per_ms P2 ->
  (forall t buf, gmtime_r P1 t buf = gmtime_r P2 t buf) ->
  fst (get_current_utc_iso_date P1 (Some I) w1)
  = fst (get_current_utc_iso_date P2 (Some I) w2)
  /\ fst (get_current_utc_iso_date_time P1 (Some I) w1)
     = fst (get_current_utc_iso_date_time P2 (Some I) w2)
  /\ fst (get_current_utc_iso_date_timestamp P1 (Some I) w1)
     = fst (get_current_utc_iso_date_timestamp P2 (Some I) w2).
Proof.
  intros Hticks Hutc.
  rewrite !run_utc_iso_date, !run_utc_iso_date_time,
    !run_utc_iso_date_timestamp.
  cbn [resolved].
  unfold to_utc_tm, to_time_t, duration_cast_seconds, milliseconds_of,
    duration_cast_milliseconds.
  rewrite Hticks, Hutc. repeat split; reflexivity.
Qed.

Lemma C10_utc_forms_witness :
  ticks_per_ms (linux zone_utc) = ticks_per_ms (linux zone_london_autumn_2024)
  /\ (forall t buf, gmtime_r (linux zone_utc) t buf
                    = gmtime_r (linux zone_london_autumn_2024) t buf)
  /\ fst (get_current_utc_iso_date_time (linux zone_utc)
            (Some 1729990799000000000) (ticking 0 1))
     = fst (get_current_utc_iso_date_time (linux zone_london_autumn_2024)
              (Some 1729990799000000000) (ticking 5 1)).
Proof.
  split; [reflexivity|]. split; [intros; reflexivity|].
  apply (C10_utc_forms_ignore_local_zone (linux zone_utc)
           (linux zone_london_autumn_2024) 1729990799000000000
           (ticking 0 1) (ticking 5 1));
    [reflexivity | intros; reflexivity].
Defined.

(* ================================================================== *)
(** ** Further properties of the entry points *)
(* ================================================================== *)

Section ClockUse.

Lemma calls_of_clock_reader (call : M string)
  (render : Chrono.time_point -> string) :
  (forall w, call w
             = (render (clock w (reads w)),
                mk_world (clock w) (S (reads w)))) ->
  forall (n : nat) (w : world),
    calls n call w
    = (map (fun j => render (clock w (reads w + j)%nat)) (seq 0 n),
       mk_world (clock w) (reads w + n)%nat).
Proof.
  intros Hcall. induction n as [|n IH]; intros w.
  - cbn [calls seq map]. rewrite Nat.add_0_r. destruct w; reflexivity.
  - cbn [calls]. rewrite Hcall, IH. cbn [clock reads seq map].
    rewrite Nat.add_0_r, <- seq_shift, map_map.
    f_equal; [f_equal|].
    + apply map_ext. intros j. rewrite Nat.add_succ_r. reflexivity.
    + rewrite Nat.add_succ_r. reflexivity.
Qed.

(** Only the forms without an instant touch the clock, and each call takes
    one reading.  With an instant the world is returned as it was and the
    string does not depend on it; [n] successive calls without an instant
    return, in order, the strings of the next [n] clock readings and leave
    the clock [n] readings further. *)
Theorem clock_is_read_once_per_call_without_instant
  (utc : bool) (P : platform) (I : Chrono.time_point) (n : nat)
  (w w' : world) :
  (date_entry utc P (Some I) w = (fst (date_entry utc P (Some I) w'), w)
   /\ date_time_entry utc P (Some I) w
      = (fst (date_time_entry utc P (Some I) w'), w)
   /\ date_timestamp_entry utc P (Some I) w
      = (fst (date_timestamp_entry utc P (Some I) w'), w))
  /\ (let reading j := Some (clock w (reads w + j)%nat) in
      let after := mk_world (clock w) (reads w + n)%nat in
      calls n (date_entry_0 utc P) w
      = (map (fun j => fst (date_entry utc P (reading j) w')) (seq 0 n),
         after)
      /\ calls n (date_time_entry_0 utc P) w
         = (map (fun j => fst (date_time_entry utc P (reading j) w'))
              (seq 0 n), after)
      /\ calls n (date_timestamp_entry_0 utc P) w
         = (map (fun j => fst (date_timestamp_entry utc P (reading j) w'))
              (seq 0 n), after)).
Proof.
  split; [destruct utc; repeat split|].
  cbv zeta. destruct utc; repeat split;
    apply (calls_of_clock_reader _
             (fun i => fst (_ (Some i) w')));
    intros w0; reflexivity.
Qed.

End ClockUse.

Section SecondsAndMilliseconds.

Variable P : platform.
Hypothesis ticks_positive : 0 < ticks_per_ms P.


(** Truncation towards zero makes the two seconds around the epoch one
    bucket: every instant less than a second away from the epoch, before or
    after, is handed to the conversion as second 0, so its date and
    date-time strings are those of the epoch itself. *)
Theorem second_around_epoch_renders_as_epoch
  (utc : bool) (i : Chrono.time_point) (w : world) :
  - (1000 * ticks_per_ms P) < i < 1000 * ticks_per_ms P ->
  to_time_t P i = 0
  /\ fst (date_entry utc P (Some i) w) = fst (date_entry utc P (Some 0) w)
  /\ fst (date_time_entry utc P (Some i) w)
     = fst (date_time_entry utc P (Some 0) w).
Proof.
  intros Hi.
  assert (Ht : to_time_t P i = 0).
  { unfold to_time_t, duration_cast_seconds.
    destruct (Z.le_gt_cases 0 i).
    - apply Z.quot_small; lia.
    - rewrite <- (Z.opp_involutive i), Z.quot_opp_l by lia.
      rewrite Z.quot_small by lia. reflexivity. }
  assert (Ht0 : to_time_t P 0 = 0) by reflexivity.
  split; [exact Ht|].
  destruct utc; cbn [date_entry date_time_entry].
  - rewrite !run_utc_iso_date, !run_utc_iso_date_time. cbn [resolved].
    rewrite Ht, Ht0. split; reflexivity.
  - rewrite !run_iso_date, !run_iso_date_time. cbn [resolved].
    rewrite Ht, Ht0. split; reflexivity.
Qed.

End SecondsAndMilliseconds.


Lemma second_around_epoch_witness :
  0 < ticks_per_ms (linux zone_utc)
  /\ - (1000 * ticks_per_ms (linux zone_utc)) < -999999999
     < 1000 * ticks_per_ms (linux zone_utc)
  /\ fst (date_time_entry true (linux zone_utc) (Some (-999999999))
            (ticking 0 1))
     = fst (date_time_entry true (linux zone_utc) (Some 0) (ticking 0 1)).
Proof.
  assert (H : 0 < ticks_per_ms (linux zone_utc)) by (vm_compute; reflexivity).
  assert (B : - (1000 * ticks_per_ms (linux zone_utc)) < -999999999
              < 1000 * ticks_per_ms (linux zone_utc))
    by (vm_compute; split; reflexivity).
  split; [exact H|]. split; [exact B|].
  exact (proj2 (proj2 (second_around_epoch_renders_as_epoch (linux zone_utc)
                         H true (-999999999) (ticking 0 1) B))).
Defined.

Section Precisions.

Lemma prefix_app (a b : string) : prefix a (a ++ b) = true.
Proof.
  induction a as [|c a IH]; cbn [prefix append]; [destruct b; reflexivity|].
  destruct (ascii_dec c c); [exact IH | congruence].
Qed.

Lemma put_time_date_time_split (b : tm) :
  put_time b "%FT%H:%M:%S"
  = put_time b "%F" ++ "T" ++ fmt_number 2 (tm_hour b) ++ ":"
    ++ fmt_number 2 (tm_min b) ++ ":" ++ fmt_number 2 (tm_sec b).
Proof.
  cbn [put_time conversion]. rewrite !app_nil_r, !app_assoc. reflexivity.
Qed.

(** The three precisions of a zone agree on what they share, for every
    instant and whatever the conversion delivered: the date string begins
    the date-time string, and the date-time string (without its Z, for the
    UTC forms) begins the timestamp string. *)
Theorem coarser_string_begins_finer
  (P : platform) (time_point : option Chrono.time_point) (w : world) :
  prefix (fst (get_current_iso_date P time_point w))
    (fst (get_current_iso_date_time P time_point w)) = true
  /\ prefix (fst (get_current_iso_date_time P time_point w))
       (fst (get_current_iso_date_timestamp P time_point w)) = true
  /\ prefix (fst (get_current_utc_iso_date P time_point w))
       (fst (get_current_utc_iso_date_time P time_point w)) = true
  /\ prefix (remove_last 1 (fst (get_current_utc_iso_date_time P time_point w)))
       (fst (get_current_utc_iso_date_timestamp P time_point w)) = true.
Proof.
  rewrite run_iso_date, run_iso_date_time, run_iso_date_timestamp,
    run_utc_iso_date, run_utc_iso_date_time, run_utc_iso_date_timestamp.
  repeat split.
  - rewrite put_time_date_time_split. apply prefix_app.
  - apply prefix_app.
  - rewrite put_time_date_time_split, app_assoc. apply prefix_app.
  - rewrite (remove_last_app _ "Z"). apply prefix_app.
Qed.

(** Where the local and the UTC conversion deliver the same breakdown for
    the instant (a host whose zone is UTC), the UTC strings are the local
    strings, with Z appended for date-time and timestamp. *)
Theorem utc_strings_are_local_strings_plus_Z
  (P : platform) (time_point : option Chrono.time_point) (w : world) :
  localtime_r P (to_time_t P (resolved time_point w)) tm_zero
  = gmtime_r P (to_time_t P (resolved time_point w)) tm_zero ->
  fst (get_current_utc_iso_date P time_point w)
  = fst (get_current_iso_date P time_point w)
  /\ fst (get_current_utc_iso_date_time P time_point w)
     = fst (get_current_iso_date_time P time_point w) ++ "Z"
  /\ fst (get_current_utc_iso_date_timestamp P time_point w)
     = fst (get_current_iso_date_timestamp P time_point w) ++ "Z".
Proof.
  intros H.
  rewrite run_iso_date, run_iso_date_time, run_iso_date_timestamp,
    run_utc_iso_date, run_utc_iso_date_time, run_utc_iso_date_timestamp.
  unfold to_local_tm, to_utc_tm. rewrite H.
  repeat split. rewrite !app_assoc. reflexivity.
Qed.

End Precisions.

Lemma utc_strings_are_local_strings_plus_Z_witness :
  localtime_r (linux zone_utc)
    (to_time_t (linux zone_utc) (resolved (Some (-86400000000001))
                                   (ticking 0 1))) tm_zero
  = gmtime_r (linux zone_utc)
      (to_time_t (linux zone_utc) (resolved (Some (-86400000000001))
                                     (ticking 0 1))) tm_zero
  /\ fst (get_current_utc_iso_date_timestamp (linux zone_utc)
            (Some (-86400000000001)) (ticking 0 1))
     = fst (get_current_iso_date_timestamp (linux zone_utc)
              (Some (-86400000000001)) (ticking 0 1)) ++ "Z".
Proof.
  split; [reflexivity|].
  exact (proj2 (proj2 (utc_strings_are_local_strings_plus_Z (linux zone_utc)
                         (Some (-86400000000001)) (ticking 0 1) eq_refl))).
Defined.

Section MillisecondField.

Lemma digit_value_digit_char (d : Z) :
  0 <= d < 10 -> digit_value (digit_char d) = d.
Proof.
  intros H.
  destruct (digit_range d H) as [?|[?|[?|[?|[?|[?|[?|[?|[?|?]]]]]]]]];
    subst d; reflexivity.
Qed.

(** For a count from 0 to 999 the millisecond field is three digit
    characters, and reading them back as a decimal number gives the count:
    7 is 007, 0 is 000, nothing is dropped or rounded. *)
Theorem formatted_milliseconds_read_back (ms : Z) :
  0 <= ms <= 999 ->
  String.length (get_formatted_milliseconds ms) = 3%nat
  /\ all_chars is_digit (get_formatted_milliseconds ms) = true
  /\ decimal_value (get_formatted_milliseconds ms) = ms.
Proof.
  intros H. rewrite formatted_milliseconds_three_digits by assumption.
  unfold three_digits.
  assert (H2 : 0 <= ms / 100 < 10)
    by (split; [apply Z.div_pos; lia | apply Z.div_lt_upper_bound; lia]).
  assert (H1 : 0 <= ms / 10 mod 10 < 10) by (apply Z.mod_pos_bound; lia).
  assert (H0 : 0 <= ms mod 10 < 10) by (apply Z.mod_pos_bound; lia).
  split; [reflexivity|]. split.
  - cbn [all_chars]. rewrite !digit_char_is_digit by assumption. reflexivity.
  - unfold decimal_value. cbn [decimal_value_from].
    rewrite !digit_value_digit_char by assumption.
    Z.div_mod_to_equations. lia.
Qed.

(** For a negative count, which the remainder of an instant before the
    epoch is, the field is the zero-filled signed text: it holds a minus
    sign, is not three digits, and is four characters long from -100 down. *)
Theorem formatted_milliseconds_of_negative_count (ms : Z) :
  - 999 <= ms <= - 1 ->
  contains_char "-" (get_formatted_milliseconds ms) = true
  /\ all_chars is_digit (get_formatted_milliseconds ms) = false
  /\ String.length (get_formatted_milliseconds ms)
     = (if ms <? - 99 then 4%nat else 3%nat)
  /\ get_formatted_milliseconds ms
     = pad_left 3 "0" ("-" ++ decimal (- ms)).
Proof.
  intros H. unfold get_formatted_milliseconds, signed_decimal.
  destruct (Z.ltb_spec ms 0); [|lia].
  destruct (Z.ltb_spec ms (-99)).
  - rewrite decimal_3 by lia. repeat split.
  - destruct (Z.lt_ge_cases (- ms) 10).
    + rewrite decimal_1 by lia. repeat split.
    + rewrite decimal_2 by lia. repeat split.
Qed.

End MillisecondField.

Lemma formatted_milliseconds_read_back_witness :
  0 <= 7 <= 999 /\ decimal_value (get_formatted_milliseconds 7) = 7.
Proof.
  assert (H : 0 <= 7 <= 999) by lia.
  split; [exact H|].
  exact (proj2 (proj2 (formatted_milliseconds_read_back 7 H))).
Defined.

Lemma formatted_milliseconds_of_negative_count_witness :
  - 999 <= - 250 <= - 1
  /\ String.length (get_formatted_milliseconds (- 250)) = 4%nat.
Proof.
  assert (H : - 999 <= - 250 <= - 1) by lia.
  split; [exact H|].
  exact (proj1 (proj2 (proj2 (formatted_milliseconds_of_negative_count
                                (- 250) H)))).
Defined.

Section Alphabet.

Lemma all_chars_app (p : ascii -> bool) (a b : string) :
  all_chars p (a ++ b) = all_chars p a && all_chars p b.
Proof.
  induction a as [|c a IH]; cbn [all_chars append]; [reflexivity|].
  rewrite IH. apply andb_assoc.
Qed.

Lemma count_char_app (c : ascii) (a b : string) :
  count_char c (a ++ b) = (count_char c a + count_char c b)%nat.
Proof.
  induction a as [|x a IH]; cbn [count_char append]; [reflexivity|].
  rewrite IH. lia.
Qed.

Lemma all_chars_weaken (p q : ascii -> bool) (s : string) :
  (forall c, p c = true -> q c = true) ->
  all_chars p s = true -> all_chars q s = true.
Proof.
  intros Hpq. induction s as [|c s IH]; cbn [all_chars]; [reflexivity|].
  intros H. apply andb_true_iff in H. destruct H as [Hc Hs].
  rewrite (Hpq _ Hc), (IH Hs). reflexivity.
Qed.

Lemma count_char_absent (p : ascii -> bool) (c : ascii) (s : string) :
  p c = false -> all_chars p s = true -> count_char c s = O.
Proof.
  intros Hc. induction s as [|a s IH]; cbn [all_chars count_char];
    [reflexivity|].
  intros H. apply andb_true_iff in H. destruct H as [Ha Hs].
  rewrite (IH Hs). destruct (Ascii.eqb_spec a c) as [->|_]; [|reflexivity].
  congruence.
Qed.

Lemma is_digit_stamp_char (c : ascii) :
  is_digit c = true -> stamp_char c = true.
Proof. intros H. unfold stamp_char. rewrite H. reflexivity. Qed.

Lemma stamp_char_iso_char (c : ascii) :
  stamp_char c = true -> iso_char c = true.
Proof.
  unfold stamp_char, iso_char. destruct (is_digit c); [reflexivity|].
  cbn [orb existsb]. intros H.
  repeat (apply orb_true_iff in H; destruct H as [H|H];
          [rewrite H; rewrite ?orb_true_r; reflexivity|]).
  discriminate.
Qed.

Lemma decimal_digits_stamp (f : nat) :
  forall (n : Z) (acc : string),
    all_chars stamp_char acc = true ->
    all_chars stamp_char (decimal_digits f n acc) = true.
Proof.
  assert (step : forall n acc,
             all_chars stamp_char acc = true ->
             all_chars stamp_char (String (digit_char (n mod 10)) acc) = true).
  { intros n acc H. cbn [all_chars].
    rewrite is_digit_stamp_char, H; [reflexivity|].
    apply digit_char_is_digit, Z.mod_pos_bound. lia. }
  induction f as [|f IH]; intros n acc H.
  - apply step, H.
  - cbn [decimal_digits]. destruct (n <? 10); [apply step, H|].
    apply IH, step, H.
Qed.

Lemma decimal_stamp (n : Z) : all_chars stamp_char (decimal n) = true.
Proof. apply decimal_digits_stamp. reflexivity. Qed.

Lemma pad_left_stamp (w : nat) (s : string) :
  all_chars stamp_char s = true ->
  all_chars stamp_char (pad_left w "0" s) = true.
Proof.
  intros H. unfold pad_left. rewrite all_chars_app, H, andb_true_r.
  induction (w - String.length s)%nat as [|n IH]; [reflexivity|].
  cbn [replicate all_chars]. rewrite IH. reflexivity.
Qed.

Lemma fmt_number_stamp (digits : nat) (v : Z) :
  all_chars stamp_char (fmt_number digits v) = true.
Proof.
  unfold fmt_number. destruct (v <? 0).
  - rewrite all_chars_app, pad_left_stamp by apply decimal_stamp.
    reflexivity.
  - apply pad_left_stamp, decimal_stamp.
Qed.

Lemma formatted_milliseconds_stamp (ms : Z) :
  all_chars stamp_char (get_formatted_milliseconds ms) = true.
Proof.
  unfold get_formatted_milliseconds, signed_decimal.
  apply pad_left_stamp. destruct (ms <? 0).
  - rewrite all_chars_app, decimal_stamp. reflexivity.
  - apply decimal_stamp.
Qed.

Lemma all_chars_cons (p : ascii -> bool) (c : ascii) (r : string) :
  all_chars p (String c r) = p c && all_chars p r.
Proof. reflexivity. Qed.

Lemma put_time_date_stamp (b : tm) :
  all_chars stamp_char (put_time b "%F") = true.
Proof.
  cbn [put_time conversion].
  repeat first [ rewrite all_chars_app
               | rewrite fmt_number_stamp
               | rewrite all_chars_cons ].
  reflexivity.
Qed.

Lemma put_time_date_time_stamp (b : tm) :
  all_chars stamp_char (put_time b "%FT%H:%M:%S") = true.
Proof.
  cbn [put_time conversion].
  repeat first [ rewrite all_chars_app
               | rewrite fmt_number_stamp
               | rewrite all_chars_cons ].
  reflexivity.
Qed.


(** The point occurs exactly once in each timestamp string, between the
    seconds and the milliseconds, and never in a date or date-time string;
    this holds for every instant, also before the epoch. *)
Theorem point_occurs_once_in_timestamps
  (P : platform) (time_point : option Chrono.time_point) (w : world) :
  count_char "." (fst (get_current_iso_date_timestamp P time_point w)) = 1%nat
  /\ count_char "."
       (fst (get_current_utc_iso_date_timestamp P time_point w)) = 1%nat
  /\ count_char "." (fst (get_current_iso_date P time_point w)) = O
  /\ count_char "." (fst (get_current_iso_date_time P time_point w)) = O
  /\ count_char "." (fst (get_current_utc_iso_date P time_point w)) = O
  /\ count_char "." (fst (get_current_utc_iso_date_time P time_point w)) = O.
Proof.
  rewrite run_iso_date, run_iso_date_time, run_iso_date_timestamp,
    run_utc_iso_date, run_utc_iso_date_time, run_utc_iso_date_timestamp.
  assert (Hd : forall b, count_char "." (put_time b "%F") = O).
  { intros b. apply (count_char_absent stamp_char);
      [reflexivity | apply put_time_date_stamp]. }
  assert (Ht : forall b, count_char "." (put_time b "%FT%H:%M:%S") = O).
  { intros b. apply (count_char_absent stamp_char);
      [reflexivity | apply put_time_date_time_stamp]. }
  assert (Hm : forall ms, count_char "." (get_formatted_milliseconds ms) = O).
  { intros ms. apply (count_char_absent stamp_char);
      [reflexivity | apply formatted_milliseconds_stamp]. }
  repeat split;
    repeat first [ rewrite count_char_app | rewrite Hd | rewrite Ht
                 | rewrite Hm ];
    reflexivity.
Qed.

End Alphabet.

Section EveryRepresentableInstant.

Lemma truncated_seconds_of_nanoseconds (i : Z) :
  - 2 ^ 63 <= i < 2 ^ 63 ->
  -9223372036 <= Z.quot i (1000 * 1000000) <= 9223372036.
Proof.
  intros [Hlo Hhi]. change (2 ^ 63) with 9223372036854775808 in *.
  change (1000 * 1000000) with 1000000000.
  destruct (Z.le_gt_cases 0 i).
  - rewrite Z.quot_div_nonneg by lia. Z.div_mod_to_equations. lia.
  - rewrite <- (Z.opp_involutive i), Z.quot_opp_l by lia.
    rewrite Z.quot_div_nonneg by lia. Z.div_mod_to_equations. lia.
Qed.

Lemma civil_year_between (z lo hi ylo yhi mlo dlo mhi dhi : Z) :
  civil_from_days lo = (ylo, mlo, dlo) ->
  civil_from_days hi = (yhi, mhi, dhi) ->
  lo <= z <= hi ->
  let '(y, _, _) := civil_from_days z in ylo <= y <= yhi.
Proof.
  intros Hlo Hhi Hz. destruct (civil_from_days z) as [[y m] d] eqn:E.
  split.
  - destruct (Z.eq_dec z lo) as [->|Hne].
    + rewrite Hlo in E. injection E as <- _ _. lia.
    + pose proof (civil_from_days_increasing lo z ltac:(lia)) as H.
      rewrite Hlo, E in H. apply lex_Lt_le in H. exact H.
  - destruct (Z.eq_dec z hi) as [->|Hne].
    + rewrite Hhi in E. injection E as <- _ _. lia.
    + pose proof (civil_from_days_increasing z hi ltac:(lia)) as H.
      rewrite Hhi, E in H. apply lex_Lt_le in H. exact H.
Qed.

Lemma offtime_fields_of_nanosecond_range (t : Z) :
  -9223372036 <= t <= 9223372036 ->
  fst (offtime t 0 tm_zero) = true
  /\ calendar_fields (snd (offtime t 0 tm_zero))
  /\ 1677 <= tm_year (snd (offtime t 0 tm_zero)) + 1900 <= 2262.
Proof.
  intros Ht. unfold offtime.
  assert (Hd : -106752 <= (t + 0) / 86400 <= 106751).
  { Z.div_mod_to_equations. lia. }
  pose proof (civil_year_between ((t + 0) / 86400) (-106752) 106751
                1677 2262 9 21 4 11 eq_refl eq_refl Hd) as Hy.
  pose proof (civil_from_days_range ((t + 0) / 86400)) as Hmd.
  destruct (civil_from_days ((t + 0) / 86400)) as [[y m] d].
  assert (Hint : (INT_MIN <=? y - 1900) && (y - 1900 <=? INT_MAX) = true).
  { unfold INT_MIN, INT_MAX. apply andb_true_iff.
    split; apply Z.leb_le; lia. }
  rewrite Hint. cbn [fst snd]. split; [reflexivity|].
  unfold calendar_fields. cbn [tm_sec tm_min tm_hour tm_mday tm_mon tm_year].
  repeat split; try lia; Z.div_mod_to_equations; lia.
Qed.

(** With the 64-bit nanosecond clock of libstdc++ on a POSIX host no
    instant is out of range for the UTC date and date-time forms: for every
    representable instant, before or after the epoch, the conversion
    succeeds, the year lies between 1677 and 2262, and the strings have the
    shapes YYYY-MM-DD and YYYY-MM-DDTHH:MM:SSZ. *)
Theorem linux_utc_strings_are_well_formed
  (zone : Z -> Z) (i : Chrono.time_point) (w : world) :
  representable i ->
  fst (gmtime_r (linux zone) (to_time_t (linux zone) i) tm_zero) = true
  /\ 1677 <= tm_year (to_utc_tm (linux zone) (to_time_t (linux zone) i)) + 1900
     <= 2262
  /\ matches_grammar "YYYY-MM-DD"
       (fst (get_current_utc_iso_date (linux zone) (Some i) w)) = true
  /\ matches_grammar "YYYY-MM-DDTHH:MM:SSZ"
       (fst (get_current_utc_iso_date_time (linux zone) (Some i) w)) = true.
Proof.
  intros Hi.
  rewrite run_utc_iso_date, run_utc_iso_date_time. cbn [resolved].
  change (to_utc_tm (linux zone) (to_time_t (linux zone) i))
    with (snd (offtime (Z.quot i (1000 * 1000000)) 0 tm_zero)).
  change (gmtime_r (linux zone) (to_time_t (linux zone) i) tm_zero)
    with (offtime (Z.quot i (1000 * 1000000)) 0 tm_zero).
  destruct (offtime_fields_of_nanosecond_range _
              (truncated_seconds_of_nanoseconds i Hi)) as (Hok & Hb & Hy).
  split; [exact Hok|]. split; [exact Hy|]. split.
  - apply date_grammar, Hb.
  - change "YYYY-MM-DDTHH:MM:SSZ" with ("YYYY-MM-DDTHH:MM:SS" ++ "Z").
    rewrite date_time_grammar by exact Hb. reflexivity.
Qed.

End EveryRepresentableInstant.

Lemma linux_utc_strings_witness :
  representable (-9223372036854775808)
  /\ matches_grammar "YYYY-MM-DDTHH:MM:SSZ"
       (fst (get_current_utc_iso_date_time (linux zone_utc)
               (Some (-9223372036854775808)) (ticking 0 1))) = true.
Proof.
  assert (H : representable (-9223372036854775808))
    by (vm_compute; split; [discriminate | reflexivity]).
  split; [exact H|].
  exact (proj2 (proj2 (proj2 (linux_utc_strings_are_well_formed zone_utc
                                (-9223372036854775808) (ticking 0 1) H)))).
Defined.

Lemma posix_field_widths_witness :
  0 < 1000000
  /\ year_1000 <= to_time_t (linux (fun _ => -18000)) 0
                  + offset_at false (fun _ => -18000)
                      (to_time_t (linux (fun _ => -18000)) 0)
     < year_10000
  /\ 0 <= resolved (Some 0) (ticking 0 1)
  /\ fst (date_timestamp_entry false (linux (fun _ => -18000)) (Some 0)
            (ticking 0 1))
     = "1969-12-31T19:00:00.000"
  /\ matches_grammar "YYYY-MM-DDTHH:MM:SS.mmm"
       (fst (date_timestamp_entry false (linux (fun _ => -18000)) (Some 0)
               (ticking 0 1))) = true.
Proof.
  assert (Hk : 0 < 1000000) by lia.
  assert (Ht : year_1000 <= to_time_t (linux (fun _ => -18000)) 0
                            + offset_at false (fun _ => -18000)
                                (to_time_t (linux (fun _ => -18000)) 0)
               < year_10000)
    by (vm_compute; split; [discriminate | reflexivity]).
  assert (Hi : 0 <= resolved (Some 0) (ticking 0 1))
    by (vm_compute; discriminate).
  split; [exact Hk|]. split; [exact Ht|]. split; [exact Hi|].
  split; [vm_compute; reflexivity|].
  exact (proj2 (proj2 (posix_field_widths false 1000000 (fun _ => -18000)
                         (Some 0) (ticking 0 1) Hk Ht)) Hi).
Defined.

Section ChronologicalOrder.

(** The date-time text of two seconds between the epoch and the year 10000
    compares as the seconds do, whatever follows. *)
Lemma compare_date_time_of_seconds (t1 t2 : Z) (r1 r2 : string) :
  0 <= t1 < year_10000 -> 0 <= t2 < year_10000 ->
  (put_time (snd (offtime t1 0 tm_zero)) "%FT%H:%M:%S" ++ r1
   ?= put_time (snd (offtime t2 0 tm_zero)) "%FT%H:%M:%S" ++ r2)%string
  = lex (t1 ?= t2) (r1 ?= r2)%string.
Proof.
  intros H1 H2.
  destruct (offtime_succeeds t1 0 tm_zero ltac:(lia)) as [_ F1].
  destruct (offtime_succeeds t2 0 tm_zero ltac:(lia)) as [_ F2].
  destruct (Z.compare_spec t1 t2) as [->|Hlt|Hgt]; cbn [lex].
  - apply compare_app_same.
  - rewrite !put_time_date_time_form, compare_date_time_text by assumption.
    rewrite (offtime_increasing t1 0 t2 0 tm_zero) by lia. reflexivity.
  - rewrite String.compare_antisym.
    rewrite !put_time_date_time_form, compare_date_time_text by assumption.
    rewrite (offtime_increasing t2 0 t1 0 tm_zero) by lia. reflexivity.
Qed.

Lemma compare_seconds_then_milliseconds (q1 q2 : Z) :
  0 <= q1 -> 0 <= q2 ->
  lex (q1 / 1000 ?= q2 / 1000) (lex (q1 mod 1000 ?= q2 mod 1000) Eq)
  = (q1 ?= q2).
Proof.
  intros H1 H2.
  destruct (Z.compare_spec (q1 / 1000) (q2 / 1000)) as [E1|E1|E1];
    destruct (Z.compare_spec (q1 mod 1000) (q2 mod 1000)) as [E2|E2|E2];
    destruct (Z.compare_spec q1 q2) as [E3|E3|E3];
    cbn [lex]; try reflexivity; exfalso;
    revert E1 E2 E3; Z.div_mod_to_equations; lia.
Qed.


End ChronologicalOrder.


Section Resolution.

Variable P : platform.
Hypothesis ticks_positive : 0 < ticks_per_ms P.

Lemma time_t_of_millisecond_count (i : Chrono.time_point) :
  to_time_t P i = Z.quot (duration_cast_milliseconds P i) 1000.
Proof.
  unfold to_time_t, duration_cast_seconds, duration_cast_milliseconds.
  rewrite (Z.mul_comm 1000 (ticks_per_ms P)), <- Z.quot_quot by lia.
  reflexivity.
Qed.

(** Nothing finer than a millisecond reaches the output: two instants with
    the same truncated millisecond count give the same six strings. *)
Theorem strings_depend_on_millisecond_count_only
  (utc : bool) (i1 i2 : Chrono.time_point) (w1 w2 : world) :
  duration_cast_milliseconds P i1 = duration_cast_milliseconds P i2 ->
  fst (date_entry utc P (Some i1) w1) = fst (date_entry utc P (Some i2) w2)
  /\ fst (date_time_entry utc P (Some i1) w1)
     = fst (date_time_entry utc P (Some i2) w2)
  /\ fst (date_timestamp_entry utc P (Some i1) w1)
     = fst (date_timestamp_entry utc P (Some i2) w2).
Proof.
  intros H.
  assert (Ht : to_time_t P i1 = to_time_t P i2)
    by (rewrite !time_t_of_millisecond_count, H; reflexivity).
  assert (Hm : milliseconds_of P i1 = milliseconds_of P i2)
    by (unfold milliseconds_of; rewrite H; reflexivity).
  destruct utc; cbn [date_entry date_time_entry date_timestamp_entry].
  - rewrite !run_utc_iso_date, !run_utc_iso_date_time,
      !run_utc_iso_date_timestamp.
    cbn [resolved]. rewrite Ht, Hm. repeat split.
  - rewrite !run_iso_date, !run_iso_date_time, !run_iso_date_timestamp.
    cbn [resolved]. rewrite Ht, Hm. repeat split.
Qed.

End Resolution.

Lemma strings_depend_on_millisecond_count_witness :
  0 < ticks_per_ms (linux zone_utc)
  /\ duration_cast_milliseconds (linux zone_utc) 1704423845006000000
     = duration_cast_milliseconds (linux zone_utc) 1704423845006999999
  /\ fst (date_timestamp_entry false (linux zone_utc)
            (Some 1704423845006000000) (ticking 0 1))
     = fst (date_timestamp_entry false (linux zone_utc)
              (Some 1704423845006999999) (ticking 7 1)).
Proof.
  assert (Hk : 0 < ticks_per_ms (linux zone_utc)) by (vm_compute; reflexivity).
  assert (H : duration_cast_milliseconds (linux zone_utc) 1704423845006000000
              = duration_cast_milliseconds (linux zone_utc)
                  1704423845006999999) by (vm_compute; reflexivity).
  split; [exact Hk|]. split; [exact H|].
  exact (proj2 (proj2 (strings_depend_on_millisecond_count_only
                         (linux zone_utc) Hk false 1704423845006000000
                         1704423845006999999 (ticking 0 1) (ticking 7 1) H))).
Defined.

Section TimestampShape.

Lemma remainder_within_999 (q : Z) : - 999 <= Z.rem q 1000 <= 999.
Proof.
  destruct (Z.le_gt_cases 0 q) as [Hq|Hq].
  - pose proof (Z.rem_bound_pos q 1000 Hq ltac:(lia)). lia.
  - assert (Hn : 0 <= - q) by lia.
    pose proof (Z.rem_bound_pos (- q) 1000 Hn ltac:(lia)) as Hb.
    rewrite Z.rem_opp_l in Hb by lia. lia.
Qed.

Lemma negative_field_breaks_grammar (ms : Z) (sfx rest : string) :
  - 999 <= ms <= - 1 ->
  matches_grammar ("mmm" ++ sfx) (get_formatted_milliseconds ms ++ rest)
  = false.
Proof.
  intros H. unfold get_formatted_milliseconds, signed_decimal.
  destruct (Z.ltb_spec ms 0); [|lia].
  destruct (Z.lt_ge_cases (- ms) 10); [|destruct (Z.lt_ge_cases (- ms) 100)].
  - rewrite decimal_1 by lia. reflexivity.
  - rewrite decimal_2 by lia. reflexivity.
  - rewrite decimal_3 by lia. reflexivity.
Qed.

(** When the conversion delivered calendar fields with a four-digit year,
    the timestamp string has the shape YYYY-MM-DDTHH:MM:SS.mmm (with Z for
    UTC) exactly when the millisecond remainder computed from the instant
    is not negative. *)
Theorem timestamp_shape_iff_remainder_not_negative
  (utc : bool) (P : platform) (time_point : option Chrono.time_point)
  (w : world) :
  calendar_fields
    (snd (platform_conversion utc P (to_time_t P (resolved time_point w))
            tm_zero)) ->
  matches_grammar ("YYYY-MM-DDTHH:MM:SS.mmm" ++ zone_suffix utc)
    (fst (date_timestamp_entry utc P time_point w)) = true
  <-> 0 <= milliseconds_of P (resolved time_point w).
Proof.
  intros Hb.
  pose proof (remainder_within_999
                (duration_cast_milliseconds P (resolved time_point w))) as B.
  fold (duration_rem (duration_cast_milliseconds P (resolved time_point w))
          1000) in B.
  fold (milliseconds_of P (resolved time_point w)) in B.
  assert (Hshape : forall b sfx,
            calendar_fields b -> matches_grammar sfx sfx = true ->
            matches_grammar ("YYYY-MM-DDTHH:MM:SS.mmm" ++ sfx)
              (put_time b "%FT%H:%M:%S" ++ "."
               ++ get_formatted_milliseconds
                    (milliseconds_of P (resolved time_point w)) ++ sfx)
            = true
            <-> 0 <= milliseconds_of P (resolved time_point w)).
  { intros b sfx Hc Hsfx. split.
    - intros Hm.
      destruct (Z.le_gt_cases 0 (milliseconds_of P (resolved time_point w)))
        as [Hge|Hlt]; [exact Hge | exfalso].
      rewrite put_time_date_time_form in Hm by assumption.
      change ("YYYY-MM-DDTHH:MM:SS.mmm" ++ sfx)
        with ("YYYY-MM-DDTHH:MM:SS" ++ (".mmm" ++ sfx)) in Hm.
      rewrite date_time_text_grammar in Hm by assumption.
      cbn [append] in Hm. rewrite grammar_literal in Hm by reflexivity.
      rewrite (negative_field_breaks_grammar _ sfx sfx) in Hm by lia.
      discriminate.
    - intros Hge. rewrite timestamp_grammar by (assumption || lia).
      exact Hsfx. }
  destruct utc; cbn [platform_conversion date_timestamp_entry zone_suffix]
    in *.
  - rewrite run_utc_iso_date_timestamp. apply Hshape; [exact Hb | reflexivity].
  - rewrite run_iso_date_timestamp.
    rewrite <- (app_nil_r (get_formatted_milliseconds _)).
    apply Hshape; [exact Hb | reflexivity].
Qed.

End TimestampShape.

Lemma timestamp_shape_witness :
  calendar_fields
    (snd (platform_conversion true (linux zone_utc)
            (to_time_t (linux zone_utc)
               (resolved (Some (-86400000250000000)) (ticking 0 1)))
            tm_zero))
  /\ (matches_grammar ("YYYY-MM-DDTHH:MM:SS.mmm" ++ zone_suffix true)
        (fst (date_timestamp_entry true (linux zone_utc)
                (Some (-86400000250000000)) (ticking 0 1))) = true
      <-> 0 <= milliseconds_of (linux zone_utc)
                 (resolved (Some (-86400000250000000)) (ticking 0 1))).
Proof.
  assert (H : calendar_fields
    (snd (platform_conversion true (linux zone_utc)
            (to_time_t (linux zone_utc)
               (resolved (Some (-86400000250000000)) (ticking 0 1)))
            tm_zero))).
  { vm_compute. repeat split; discriminate. }
  split; [exact H|].
  exact (timestamp_shape_iff_remainder_not_negative true (linux zone_utc)
           (Some (-86400000250000000)) (ticking 0 1) H).
Defined.


Section Limits.

(** Outside the years 1000 to 9999, and for timestamps before the epoch,
    later readings can give smaller strings even in UTC: the year 10000
    sorts before 9999, and the signed millisecond field runs backwards. *)
Lemma order_breaks_outside_the_range :
  twice (get_current_utc_iso_date_time_0 (macos zone_utc))
    (two_readings 253402300799000000 253402300800000000)
  = ("9999-12-31T23:59:59Z", "10000-01-01T00:00:00Z")
  /\ String.leb "9999-12-31T23:59:59Z" "10000-01-01T00:00:00Z" = false
  /\ twice (get_current_utc_iso_date_timestamp_0 (linux zone_utc))
       (two_readings (-2000000) (-1000000))
     = ("1970-01-01T00:00:00.0-2Z", "1970-01-01T00:00:00.0-1Z")
  /\ String.leb "1970-01-01T00:00:00.0-2Z" "1970-01-01T00:00:00.0-1Z" = false.
Proof. repeat split; vm_compute; reflexivity. Qed.

(** On a POSIX host whose clock tick is a millisecond or finer and whose
    zone offset stays within a day, neither conversion can fail for an
    instant of the 64-bit tick counter: the year always fits [int]. *)
Lemma posix_conversion_never_fails
  (k : Z) (zone : Z -> Z) (i : Chrono.time_point) :
  1 <= k -> representable i ->
  (forall t, - 86400 <= zone t <= 86400) ->
  let P := posix_platform k zone in
  fst (gmtime_r P (to_time_t P i) tm_zero) = true
  /\ fst (localtime_r P (to_time_t P i) tm_zero) = true.
Proof.
  intros Hk [Hlo Hhi] Hzone P.
  change (2 ^ 63) with 9223372036854775808 in *.
  assert (Ht : -9223372036854776 <= to_time_t P i <= 9223372036854776).
  { unfold to_time_t, duration_cast_seconds, P.
    cbn [ticks_per_ms posix_platform].
    destruct (Z.le_gt_cases 0 i).
    - rewrite Z.quot_div_nonneg by lia.
      assert (0 <= i / (1000 * k)) by (apply Z.div_pos; lia).
      assert (i / (1000 * k) <= i / 1000)
        by (apply Z.div_le_compat_l; lia).
      assert (i / 1000 <= 9223372036854776)
        by (Z.div_mod_to_equations; lia).
      lia.
    - rewrite <- (Z.opp_involutive i), Z.quot_opp_l by lia.
      rewrite Z.quot_div_nonneg by lia.
      assert (0 <= - i / (1000 * k)) by (apply Z.div_pos; lia).
      assert (- i / (1000 * k) <= - i / 1000)
        by (apply Z.div_le_compat_l; lia).
      assert (- i / 1000 <= 9223372036854776)
        by (Z.div_mod_to_equations; lia).
      lia. }
  assert (Hok : forall o, - 86400 <= o <= 86400 ->
            fst (offtime (to_time_t P i) o tm_zero) = true).
  { intros o Ho. unfold offtime.
    assert (Hd : -106751991169 <= (to_time_t P i + o) / 86400
                 <= 106751991169).
    { revert Ht. generalize (to_time_t P i). intros t Ht.
      Z.div_mod_to_equations. lia. }
    pose proof (civil_year_between ((to_time_t P i + o) / 86400)
                  (-106751991169) 106751991169
                  (-292275055) 292278994 5 15 8 19
                  ltac:(vm_compute; reflexivity)
                  ltac:(vm_compute; reflexivity) Hd) as Hy.
    destruct (civil_from_days ((to_time_t P i + o) / 86400)) as [[y m] d].
    assert (Hint : (INT_MIN <=? y - 1900) && (y - 1900 <=? INT_MAX) = true).
    { unfold INT_MIN, INT_MAX. apply andb_true_iff.
      split; apply Z.leb_le; lia. }
    rewrite Hint. reflexivity. }
  split.
  - apply (Hok 0). lia.
  - apply Hok, Hzone.
Qed.

End Limits.
